(** * datahub-actions: pipeline manager and event registry

    A shallow embedding of

      - [datahub_actions/pipeline/pipeline_manager.py]
        ([run_pipeline], [PipelineManager.start_pipeline],
        [PipelineManager.terminate_pipeline], [PipelineManager.terminate_all]);
      - [datahub_actions/event/event_registry.py]
        ([MetadataChangeLogEvent] and [EntityChangeEvent]: [from_class],
        [from_json], [as_json]).

    Python dictionaries are insertion-ordered association lists, the calls
    into collaborators ([Pipeline.run], [Pipeline.stop], [Thread.join], ...)
    are answered by an oracle that sees the history of effects, and every
    effect of the manager is recorded in a trace. *)

From stdpp Require Import base strings list gmap.
From Stdlib Require Import ZArith Lia Ascii.

Local Open Scope Z_scope.
Local Open Scope nat_scope.

(* ===================================================================== *)
(** * Part I: definitions                                                 *)
(* ===================================================================== *)

(** ** Python [dict] with string keys

    Keys keep their insertion order, [d[k] = v] overwrites in place when
    the key exists and appends otherwise, [del d[k]] and [d[k]] fail on a
    missing key (Python raises [KeyError]). *)

Section PyDict.
Context {V : Type}.

Definition Dict := list (string * V).

Fixpoint dict_get (k : string) (d : Dict) : option V :=
  match d with
  | [] => None
  | (k', v) :: d' => if String.eqb k k' then Some v else dict_get k d'
  end.

(** [k in d] *)
Definition dict_contains (k : string) (d : Dict) : bool :=
  match dict_get k d with Some _ => true | None => false end.

(** [d[k] = v] *)
Fixpoint dict_set (k : string) (v : V) (d : Dict) : Dict :=
  match d with
  | [] => [(k, v)]
  | (k', v') :: d' =>
      if String.eqb k k' then (k', v) :: d' else (k', v') :: dict_set k v d'
  end.

(** [del d[k]]; [None] stands for [KeyError]. *)
Fixpoint dict_del (k : string) (d : Dict) : option Dict :=
  match d with
  | [] => None
  | (k', v') :: d' =>
      if String.eqb k k' then Some d'
      else match dict_del k d' with
           | Some d'' => Some ((k', v') :: d'')
           | None => None
           end
  end.

(** [list(d.keys())] *)
Definition dict_keys (d : Dict) : list string := map fst d.

Definition dict_values (d : Dict) : list V := map snd d.
End PyDict.

Arguments Dict : clear implicits.

(** ** Exceptions and results *)

(** A raised exception: its class, its message and the entries of its
    traceback, outermost frame first. Only instances of [Exception] are
    modelled, the ones an [except Exception] clause catches. *)
Record PyExc := mkExc {
  exc_type : string;
  exc_msg : string;
  exc_frames : list string
}.

(** [Exception(msg)] raised by the manager itself. *)
Definition Exception (msg : string) : PyExc :=
  {| exc_type := "Exception"; exc_msg := msg; exc_frames := [] |}.

Definition KeyError (k : string) : PyExc :=
  {| exc_type := "KeyError"; exc_msg := k; exc_frames := [] |}.

(** The entries [traceback.format_exc(limit=n)] prints: at most [n]. *)
Definition format_exc_entries (limit : nat) (e : PyExc) : list string :=
  take limit (exc_frames e).

Definition concat_lines (ls : list string) : string :=
  fold_right (fun l acc => l +:+ acc) "" ls.

(** [traceback.format_exc(limit=n)] *)
Definition format_exc (limit : nat) (e : PyExc) : string :=
  "Traceback (most recent call last):" +:+
  concat_lines (format_exc_entries limit e) +:+
  exc_type e +:+ ": " +:+ exc_msg e.

(** What evaluating a Python expression can do: yield a value, raise, or
    never return (a [join] on a worker that never exits). *)
Inductive Result (A : Type) : Type :=
| Ok (a : A)
| Err (e : PyExc)
| Hang.
Arguments Ok {A} a.
Arguments Err {A} e.
Arguments Hang {A}.

Definition rbind {A B} (r : Result A) (f : A -> Result B) : Result B :=
  match r with
  | Ok a => f a
  | Err e => Err e
  | Hang => Hang
  end.

(** ** The model of [pipeline_manager.py] *)

(** The collaborator [Pipeline]: an object (its identity [id]) with a [name]
    attribute; its methods are answered by the oracle below. *)
Module Pipeline.
Record t := mk { id : nat; name : string }.
End Pipeline.

(** [Thread(target=run_pipeline, args=([pipeline]))] *)
Record Thread := mkThread { tid : nat; args : Pipeline.t }.

(** The dataclass [PipelineSpec]. *)
Module PipelineSpec.
Record t := mk { name : string; pipeline : Pipeline.t; thread : Thread }.
End PipelineSpec.

Inductive Level := DEBUG | INFO | ERROR.

(** Calls into collaborators. [CJoin t timeout] is [t.join(timeout)]. *)
Inductive Call :=
| CRun (p : Pipeline.t)
| CStop (p : Pipeline.t)
| CJoin (t : Thread) (timeout : option nat)
| CStats (p : Pipeline.t)
| CPrettyPrintSummary (p : Pipeline.t) (name : string).

Inductive Effect :=
| EStart (t : Thread)
| ECall (c : Call)
| ELog (lvl : Level) (msg : string).

Inductive Outcome := Returned | Raised (e : PyExc) | Blocked.

(** [pipeline_registry] is a class attribute of [PipelineManager]: one
    dictionary for the process. *)
Record State := mkState {
  pipeline_registry : Dict PipelineSpec.t;
  trace : list Effect;
  next_tid : nat
}.

Definition initial_state : State :=
  {| pipeline_registry := []; trace := []; next_tid := 0 |}.

Definition emit (e : Effect) (st : State) : State :=
  {| pipeline_registry := pipeline_registry st;
     trace := trace st ++ [e];
     next_tid := next_tid st |}.

Definition set_registry (d : Dict PipelineSpec.t) (st : State) : State :=
  {| pipeline_registry := d; trace := trace st; next_tid := next_tid st |}.

(** State and exception monad of the manager's methods. *)
Definition M (A : Type) : Type := State -> Result A * State.

Definition ret {A} (a : A) : M A := fun st => (Ok a, st).

Definition bind {A B} (m : M A) (f : A -> M B) : M B :=
  fun st =>
    match m st with
    | (Ok a, st') => f a st'
    | (Err e, st') => (Err e, st')
    | (Hang, st') => (Hang, st')
    end.

Definition raise {A} (e : PyExc) : M A := fun st => (Err e, st).

(** [try: body except Exception: handler] *)
Definition try_except {A} (body : M A) (handler : PyExc -> M A) : M A :=
  fun st =>
    match body st with
    | (Err e, st') => handler e st'
    | r => r
    end.

Declare Scope py_scope.
Delimit Scope py_scope with py.
Notation "x <- m ;; k" := (bind m (fun x => k))
  (at level 100, m at next level, right associativity) : py_scope.
Notation "m ;; k" := (bind m (fun _ => k))
  (at level 100, right associativity) : py_scope.

Local Open Scope py_scope.

Definition logger (lvl : Level) (msg : string) : M unit :=
  fun st => (Ok tt, emit (ELog lvl msg) st).

Definition get_registry : M (Dict PipelineSpec.t) :=
  fun st => (Ok (pipeline_registry st), st).

(** [self.pipeline_registry[k]] *)
Definition registry_getitem (k : string) : M PipelineSpec.t :=
  fun st =>
    match dict_get k (pipeline_registry st) with
    | Some spec => (Ok spec, st)
    | None => (Err (KeyError k), st)
    end.

(** [self.pipeline_registry[k] = spec] *)
Definition registry_setitem (k : string) (spec : PipelineSpec.t) : M unit :=
  fun st => (Ok tt, set_registry (dict_set k spec (pipeline_registry st)) st).

(** [del self.pipeline_registry[k]] *)
Definition registry_delitem (k : string) : M unit :=
  fun st =>
    match dict_del k (pipeline_registry st) with
    | Some d => (Ok tt, set_registry d st)
    | None => (Err (KeyError k), st)
    end.

(** [Thread(target=run_pipeline, args=([pipeline]))]: a new thread object. *)
Definition new_thread (pipeline : Pipeline.t) : M Thread :=
  fun st =>
    (Ok {| tid := next_tid st; args := pipeline |},
     {| pipeline_registry := pipeline_registry st;
        trace := trace st;
        next_tid := S (next_tid st) |}).

(** [thread.start()]: the worker is scheduled, the caller goes on. *)
Definition thread_start (t : Thread) : M unit :=
  fun st => (Ok tt, emit (EStart t) st).

(** [for x in xs: body(x)] *)
Fixpoint for_each {A} (xs : list A) (body : A -> M unit) : M unit :=
  match xs with
  | [] => ret tt
  | x :: xs' => body x ;; for_each xs' body
  end.

Section Manager.
(** The collaborators: what a call does, given everything that happened
    before it. *)
Variable env : list Effect -> Call -> Outcome.

Definition call (c : Call) : M unit :=
  fun st =>
    let st' := emit (ECall c) st in
    match env (trace st) c with
    | Returned => (Ok tt, st')
    | Raised e => (Err e, st')
    | Blocked => (Hang, st')
    end.

Definition run_pipeline (pipeline : Pipeline.t) : M unit :=
  try_except
    (call (CRun pipeline))
    (fun e =>
       logger ERROR
         ("Caught exception while executing pipeline with name " +:+
          Pipeline.name pipeline +:+ ": " +:+ format_exc 3 e) ;;
       call (CStop pipeline)) ;;
  logger DEBUG
    ("Thread for pipeline with name " +:+ Pipeline.name pipeline +:+
     " has terminated.").

(** The body a started thread executes. *)
Definition thread_body (t : Thread) : M unit := run_pipeline (args t).

Definition start_pipeline (name : string) (pipeline : Pipeline.t) : M unit :=
  logger DEBUG ("Attempting to start pipeline with name " +:+ name +:+ "...") ;;
  registry <- get_registry ;;
  if negb (dict_contains name registry) then
    thread <- new_thread pipeline ;;
    thread_start thread ;;
    let spec := PipelineSpec.mk name pipeline thread in
    registry_setitem (Pipeline.name pipeline) spec ;;
    logger DEBUG ("Started pipeline with name " +:+ name +:+ ".")
  else
    raise (Exception ("Pipeline with name " +:+ name +:+ " is already running.")).

Definition terminate_pipeline (name : string) : M unit :=
  logger DEBUG ("Attempting to terminate pipeline with name " +:+ name +:+ "...") ;;
  registry <- get_registry ;;
  if dict_contains name registry then
    try_except
      (pipeline_spec <- registry_getitem name ;;
       call (CStop (PipelineSpec.pipeline pipeline_spec)) ;;
       call (CJoin (PipelineSpec.thread pipeline_spec) None) ;;
       logger INFO
         ("Actions Pipeline with name '" +:+ name +:+ "' has been stopped.") ;;
       call (CStats (PipelineSpec.pipeline pipeline_spec)) ;;
       call (CPrettyPrintSummary (PipelineSpec.pipeline pipeline_spec) name) ;;
       registry_delitem name)
      (fun e =>
         logger ERROR
           ("Caught exception while attempting to terminate pipeline with name " +:+
            name +:+ ": " +:+ format_exc 3 e) ;;
         raise (Exception
           ("Caught exception while attempting to terminate pipeline with name " +:+
            name +:+ ".")))
  else
    raise (Exception ("No pipeline with name " +:+ name +:+ " found.")).

Definition terminate_all : M unit :=
  logger DEBUG "Attempting to terminate all running pipelines..." ;;
  registry <- get_registry ;;
  let names := dict_keys registry in
  for_each names terminate_pipeline ;;
  logger DEBUG "Successfully terminated all running pipelines.".
End Manager.

(** The errors of the supervisor's surface, as the exceptions the code
    raises for them. *)
Definition AlreadyRunning (name : string) : PyExc :=
  Exception ("Pipeline with name " +:+ name +:+ " is already running.").

Definition NotFound (name : string) : PyExc :=
  Exception ("No pipeline with name " +:+ name +:+ " found.").

Definition TerminationFailed (name : string) : PyExc :=
  Exception
    ("Caught exception while attempting to terminate pipeline with name " +:+
     name +:+ ".").

(** Observations on a trace. *)
Definition calls_of (tr : list Effect) : list Call :=
  omap (fun e => match e with ECall c => Some c | _ => None end) tr.

Definition started_threads (tr : list Effect) : list Thread :=
  omap (fun e => match e with EStart t => Some t | _ => None end) tr.

Definition pipeline_eqb (p q : Pipeline.t) : bool :=
  Nat.eqb (Pipeline.id p) (Pipeline.id q) &&
  String.eqb (Pipeline.name p) (Pipeline.name q).

Definition is_stop_of (p : Pipeline.t) (e : Effect) : bool :=
  match e with
  | ECall (CStop q) => pipeline_eqb p q
  | _ => false
  end.

(** How many times [p.stop()] was called. *)
Definition stop_count (p : Pipeline.t) (tr : list Effect) : nat :=
  length (List.filter (is_stop_of p) tr).

(** Every record sits under its pipeline's own name. *)
Definition registry_wf (d : Dict PipelineSpec.t) : Prop :=
  NoDup (dict_keys d) /\
  Forall (fun kv => fst kv = Pipeline.name (PipelineSpec.pipeline (snd kv))) d.

(** The history each collaborator call of [terminate_pipeline name] sees,
    for the record [spec] found under [name]. *)
Definition at_stop (name : string) (st : State) : list Effect :=
  trace st ++
  [ELog DEBUG ("Attempting to terminate pipeline with name " +:+ name +:+ "...")].

Definition at_join (name : string) (spec : PipelineSpec.t) (st : State)
  : list Effect :=
  at_stop name st ++ [ECall (CStop (PipelineSpec.pipeline spec))].

Definition at_stats (name : string) (spec : PipelineSpec.t) (st : State)
  : list Effect :=
  (at_join name spec st ++ [ECall (CJoin (PipelineSpec.thread spec) None)]) ++
  [ELog INFO ("Actions Pipeline with name '" +:+ name +:+ "' has been stopped.")].

Definition at_print (name : string) (spec : PipelineSpec.t) (st : State)
  : list Effect :=
  at_stats name spec st ++ [ECall (CStats (PipelineSpec.pipeline spec))].

(** The collaborator calls of a successful [terminate_pipeline name]. *)
Definition terminate_calls (name : string) (spec : PipelineSpec.t) : list Call :=
  [CStop (PipelineSpec.pipeline spec);
   CJoin (PipelineSpec.thread spec) None;
   CStats (PipelineSpec.pipeline spec);
   CPrettyPrintSummary (PipelineSpec.pipeline spec) name].

(** What the worker logs when [run] raises [e]. *)
Definition crash_log (pipeline : Pipeline.t) (e : PyExc) : Effect :=
  ELog ERROR
    ("Caught exception while executing pipeline with name " +:+
     Pipeline.name pipeline +:+ ": " +:+ format_exc 3 e).

(** ** The model of [event_registry.py] *)

(** Python values held in a field store or a decoded JSON document.
    [VDict] is a plain [dict]; [VRecord cls fields] is an instance of a
    generated schema class (a [DictWrapper]) with its fields. *)
#[warnings="-register-all"]
Inductive Value :=
| VNone
| VBool (b : bool)
| VInt (z : Z)
| VStr (s : string)
| VList (l : list Value)
| VDict (d : list (string * Value))
| VRecord (cls : string) (fields : list (string * Value)).

(** Objects of the generated classes: a class and a reference to the
    mutable dictionary [_inner_dict] that stores the fields. *)
Record Obj := mkObj { obj_class : string; _inner_dict : nat }.

Record Heap := mkHeap {
  dicts : gmap nat (Dict Value);
  next_loc : nat
}.

(** [obj._inner_dict[k]] *)
Definition obj_getitem (o : Obj) (k : string) (h : Heap) : option Value :=
  match dicts h !! _inner_dict o with
  | Some d => dict_get k d
  | None => None
  end.

(** [obj._inner_dict[k] = v] *)
Definition obj_setitem (o : Obj) (k : string) (v : Value) (h : Heap) : Heap :=
  {| dicts := alter (dict_set k v) (_inner_dict o) (dicts h);
     next_loc := next_loc h |}.

(** Every allocated store lies below [next_loc]. *)
Definition heap_wf (h : Heap) : Prop :=
  forall l, is_Some (dicts h !! l) -> l < next_loc h.

Definition live (o : Obj) (h : Heap) : Prop := is_Some (dicts h !! _inner_dict o).

Section SchemaLibrary.
(** [DictWrapper.construct] and [_restore_defaults], methods the event
    classes inherit from the schema library. *)
Variable construct : string -> Dict Value -> Heap -> Obj * Heap.
Variable _restore_defaults : Obj -> Heap -> Heap.

(** [from_class] of [MetadataChangeLogEvent] and of [EntityChangeEvent]:
    the two methods have the same body. *)
Definition from_class (cls : string) (clazz : Obj) (h : Heap) : Obj * Heap :=
  let '(instance, h1) := construct cls [] h in
  let h2 := _restore_defaults instance h1 in
  (* instance._inner_dict = clazz._inner_dict *)
  let instance :=
    {| obj_class := obj_class instance; _inner_dict := _inner_dict clazz |} in
  (instance, h2).
End SchemaLibrary.

(** What [from_class] needs of the two library methods: [construct] gives
    the new object a store that was not in use and leaves the other stores
    alone, and [_restore_defaults] writes to the store of its object only. *)
Definition construct_allocates
    (construct : string -> Dict Value -> Heap -> Obj * Heap) : Prop :=
  forall cls d h o h',
    heap_wf h -> construct cls d h = (o, h') ->
    dicts h !! _inner_dict o = None /\
    forall l, l <> _inner_dict o -> dicts h' !! l = dicts h !! l.

Definition restore_defaults_local (_restore_defaults : Obj -> Heap -> Heap)
  : Prop :=
  forall self h l,
    l <> _inner_dict self -> dicts (_restore_defaults self h) !! l = dicts h !! l.

(** A reference instance of the two methods: [construct] allocates a new
    dictionary filled from its argument, [_restore_defaults] assigns every
    field of the class its default. *)
Definition dict_update (src dst : Dict Value) : Dict Value :=
  fold_left (fun acc kv => dict_set (fst kv) (snd kv) acc) src dst.

Definition construct_ref (cls : string) (inner_dict : Dict Value) (h : Heap)
  : Obj * Heap :=
  let l := next_loc h in
  ({| obj_class := cls; _inner_dict := l |},
   {| dicts := <[l := dict_update inner_dict []]> (dicts h);
      next_loc := S l |}).

Definition restore_defaults_ref (defaults : string -> Dict Value)
    (self : Obj) (h : Heap) : Heap :=
  {| dicts := alter (dict_update (defaults (obj_class self)))
                (_inner_dict self) (dicts h);
     next_loc := next_loc h |}.

Module MetadataChangeLogEvent.
Definition from_class := from_class.

Section Json.
(** [to_obj] and [from_obj] of [MetadataChangeLogClass], [json.dumps]
    and [json.loads]. *)
Variable to_obj : Dict Value -> bool -> Result (Dict Value).
Variable from_obj : Value -> bool -> Result (Dict Value).
Variable dumps : Value -> Result string.
Variable loads : string -> Result Value.

Definition from_json (json_str : string) : Result (Dict Value) :=
  rbind (loads json_str) (fun json_obj => from_obj json_obj true).

Definition as_json (self : Dict Value) : Result string :=
  rbind (to_obj self false) (fun json_obj => dumps (VDict json_obj)).
End Json.
End MetadataChangeLogEvent.

Module EntityChangeEvent.
Definition from_class := from_class.

Section Json.
(** [to_obj] and [from_obj] of [EntityChangeEventClass], [json.dumps]
    and [json.loads]. *)
Variable to_obj : Dict Value -> bool -> Result (Dict Value).
Variable from_obj : Value -> bool -> Result (Dict Value).
Variable dumps : Value -> Result string.
Variable loads : string -> Result Value.

Definition from_json (json_str : string) : Result (Dict Value) :=
  rbind (loads json_str) (fun json_obj => from_obj json_obj true).

(** The value stored under ["parameters"] by [as_json]. *)
Definition live_parameters (self : Dict Value) : Value :=
  if dict_contains "parameters" self then
    match dict_get "parameters" self with Some v => v | None => VNone end
  else VDict [].

(** The object handed to [json.dumps]. *)
Definition as_json_obj (self : Dict Value) : Result (Dict Value) :=
  rbind (to_obj self false) (fun json_obj =>
    Ok (dict_set "parameters" (live_parameters self) json_obj)).

Definition as_json (self : Dict Value) : Result string :=
  rbind (as_json_obj self) (fun json_obj => dumps (VDict json_obj)).
End Json.
End EntityChangeEvent.

Definition ENTITY_CHANGE_EVENT_V1_TYPE : string := "EntityChangeEvent_v1".
Definition METADATA_CHANGE_LOG_EVENT_V1_TYPE : string := "MetadataChangeLogEvent_v1".

(** The two ways [terminate_pipeline name] ends without success, given the
    trace [tr] reached: the handler logs the traceback of [e] and raises, or
    a collaborator never returns. Neither touches the registry. *)
Definition terminate_error_log (name : string) (e : PyExc) : Effect :=
  ELog ERROR
    ("Caught exception while attempting to terminate pipeline with name " +:+
     name +:+ ": " +:+ format_exc 3 e).

Definition terminate_failed (name : string) (e : PyExc) (tr : list Effect)
  (st : State) : Result unit * State :=
  (Err (TerminationFailed name),
   {| pipeline_registry := pipeline_registry st;
      trace := tr ++ [terminate_error_log name e];
      next_tid := next_tid st |}).

Definition terminate_hung (tr : list Effect) (st : State)
  : Result unit * State :=
  (Hang,
   {| pipeline_registry := pipeline_registry st;
      trace := tr;
      next_tid := next_tid st |}).

(** ** Sample collaborators and states, used to run the model *)

Definition pipeline_a : Pipeline.t := Pipeline.mk 1 "a".
Definition pipeline_b : Pipeline.t := Pipeline.mk 2 "b".
Definition pipeline_c : Pipeline.t := Pipeline.mk 3 "c".

(** A pipeline whose [name] attribute is not the name it is started under. *)
Definition pipeline_q : Pipeline.t := Pipeline.mk 7 "q".

(** Collaborators that always return. *)
Definition always_returns : list Effect -> Call -> Outcome :=
  fun _ _ => Returned.

Definition boom : PyExc :=
  {| exc_type := "RuntimeError";
     exc_msg := "boom";
     exc_frames := ["run"; "process"; "transform"; "act"; "emit"] |}.

(** Collaborators whose [run()] raises [boom]. *)
Definition run_raises : list Effect -> Call -> Outcome :=
  fun _ c => match c with CRun _ => Raised boom | _ => Returned end.

(** Collaborators whose [stop()] raises [boom]. *)
Definition stop_raises : list Effect -> Call -> Outcome :=
  fun _ c => match c with CStop _ => Raised boom | _ => Returned end.

(** Collaborators whose [stats()] raises [boom]. *)
Definition stats_raises : list Effect -> Call -> Outcome :=
  fun _ c => match c with CStats _ => Raised boom | _ => Returned end.

(** The state after [start_pipeline("a", pipeline_a)]. *)
Definition st_a : State :=
  snd (start_pipeline "a" pipeline_a initial_state).

(** The state after starting ["a"], ["b"] and ["c"]. *)
Definition st_abc : State :=
  snd ((start_pipeline "a" pipeline_a ;;
        start_pipeline "b" pipeline_b ;;
        start_pipeline "c" pipeline_c) initial_state).

(** Whether the ["parameters"] entry of a field store is one the strict
    schema can hold: absent, [None], or an instance of the schema's record
    for it, which declares no field. A plain nested [dict] is not. *)
Definition parameters_schema_typed (d : Dict Value) : bool :=
  match dict_get "parameters" d with
  | None | Some VNone | Some (VRecord _ []) => true
  | _ => false
  end.

(** A heap holding the field store of one record, and that record. *)
Definition sample_heap : Heap :=
  {| dicts := {[ 0 := [("entityType", VStr "dataset"); ("version", VInt 0)] ]};
     next_loc := 1 |}.

Definition sample_record : Obj :=
  {| obj_class := "EntityChangeEventClass"; _inner_dict := 0 |}.

Definition sample_defaults : string -> Dict Value :=
  fun _ => [("modifier", VNone); ("parameters", VNone)].

(** ** A reference instance of the collaborators of the event classes

    [json_dumps] and [json_loads] stand for [json.dumps] and [json.loads] on
    the documents used here (no escapes, integers only); [strict_to_obj] and
    [strict_from_obj] are a strict record codec in the manner of the schema
    library, for a record with four required string fields and the optional
    record ["parameters"], whose schema declares no field. They serve to run
    the model on concrete events. *)

Definition dquote : ascii := Ascii.ascii_of_nat 34.

Definition quoted (s : string) : string :=
  String dquote (s +:+ String dquote EmptyString).

Fixpoint digits_of_nat (fuel n : nat) (acc : string) : string :=
  match fuel with
  | 0 => acc
  | S fuel' =>
      let acc' := String (Ascii.ascii_of_nat (48 + n mod 10)) acc in
      if Nat.eqb (n / 10) 0 then acc' else digits_of_nat fuel' (n / 10) acc'
  end.

Definition string_of_Z (z : Z) : string :=
  let n := Z.abs_nat z in
  let d := digits_of_nat (S n) n "" in
  if (z <? 0)%Z then String "-"%char d else d.

Definition TypeError (msg : string) : PyExc :=
  {| exc_type := "TypeError"; exc_msg := msg; exc_frames := [] |}.

Definition JSONDecodeError (msg : string) : PyExc :=
  {| exc_type := "JSONDecodeError"; exc_msg := msg; exc_frames := [] |}.

Fixpoint json_dumps (v : Value) : Result string :=
  match v with
  | VNone => Ok "null"
  | VBool true => Ok "true"
  | VBool false => Ok "false"
  | VInt z => Ok (string_of_Z z)
  | VStr s => Ok (quoted s)
  | VList l =>
      rbind
        ((fix items (l : list Value) : Result string :=
            match l with
            | [] => Ok ""
            | x :: xs =>
                rbind (json_dumps x) (fun a =>
                match xs with
                | [] => Ok a
                | _ => rbind (items xs) (fun b => Ok (a +:+ ", " +:+ b))
                end)
            end) l)
        (fun body => Ok ("[" +:+ body +:+ "]"))
  | VDict d =>
      rbind
        ((fix members (d : list (string * Value)) : Result string :=
            match d with
            | [] => Ok ""
            | (k, x) :: xs =>
                rbind (json_dumps x) (fun a =>
                let m := quoted k +:+ ": " +:+ a in
                match xs with
                | [] => Ok m
                | _ => rbind (members xs) (fun b => Ok (m +:+ ", " +:+ b))
                end)
            end) d)
        (fun body => Ok ("{" +:+ body +:+ "}"))
  | VRecord cls _ =>
      Err (TypeError ("Object of type " +:+ cls +:+ " is not JSON serializable"))
  end.

Definition is_space (c : ascii) : bool :=
  let n := Ascii.nat_of_ascii c in
  Nat.eqb n 32 || Nat.eqb n 10 || Nat.eqb n 13 || Nat.eqb n 9.

Fixpoint skip_ws (s : string) : string :=
  match s with
  | String c r => if is_space c then skip_ws r else s
  | EmptyString => s
  end.

(** The characters up to the closing quote, and what follows it. *)
Fixpoint read_string (s : string) : option (string * string) :=
  match s with
  | EmptyString => None
  | String c r =>
      if Ascii.eqb c dquote then Some (EmptyString, r)
      else match read_string r with
           | Some (x, r') => Some (String c x, r')
           | None => None
           end
  end.

Definition digit_of (c : ascii) : option Z :=
  let n := Ascii.nat_of_ascii c in
  if Nat.leb 48 n && Nat.leb n 57 then Some (Z.of_nat (n - 48)) else None.

Fixpoint read_digits (acc : Z) (s : string) : Z * string :=
  match s with
  | String c r =>
      match digit_of c with
      | Some d => read_digits (10 * acc + d)%Z r
      | None => (acc, s)
      end
  | EmptyString => (acc, s)
  end.

Definition strip_prefix (pre s : string) : option string :=
  if String.prefix pre s
  then Some (String.substring (String.length pre)
               (String.length s - String.length pre) s)
  else None.

Fixpoint parse_value (fuel : nat) (s : string) : option (Value * string) :=
  match fuel with
  | 0 => None
  | S fuel' =>
      match skip_ws s with
      | EmptyString => None
      | String c r =>
          if Ascii.eqb c dquote then
            match read_string r with
            | Some (x, r') => Some (VStr x, r')
            | None => None
            end
          else if Ascii.eqb c "["%char then
            match parse_items fuel' r with
            | Some (l, r') => Some (VList l, r')
            | None => None
            end
          else if Ascii.eqb c "{"%char then
            match parse_members fuel' r with
            | Some (d, r') => Some (VDict d, r')
            | None => None
            end
          else if Ascii.eqb c "-"%char then
            let '(z, r') := read_digits 0 r in Some (VInt (- z), r')
          else match digit_of c with
               | Some _ => let '(z, r') := read_digits 0 (String c r) in
                           Some (VInt z, r')
               | None =>
                   match strip_prefix "null" (String c r),
                         strip_prefix "true" (String c r),
                         strip_prefix "false" (String c r) with
                   | Some r', _, _ => Some (VNone, r')
                   | _, Some r', _ => Some (VBool true, r')
                   | _, _, Some r' => Some (VBool false, r')
                   | _, _, _ => None
                   end
               end
      end
  end
with parse_items (fuel : nat) (s : string) : option (list Value * string) :=
  match fuel with
  | 0 => None
  | S fuel' =>
      match skip_ws s with
      | String c r =>
          if Ascii.eqb c "]"%char then Some ([], r)
          else
            match parse_value fuel' (String c r) with
            | Some (v, r1) =>
                match skip_ws r1 with
                | String c1 r2 =>
                    if Ascii.eqb c1 ","%char then
                      match parse_items fuel' r2 with
                      | Some (l, r3) => Some (v :: l, r3)
                      | None => None
                      end
                    else if Ascii.eqb c1 "]"%char then Some ([v], r2)
                    else None
                | EmptyString => None
                end
            | None => None
            end
      | EmptyString => None
      end
  end
with parse_members (fuel : nat) (s : string)
  : option (list (string * Value) * string) :=
  match fuel with
  | 0 => None
  | S fuel' =>
      match skip_ws s with
      | String c r =>
          if Ascii.eqb c "}"%char then Some ([], r)
          else if Ascii.eqb c dquote then
            match read_string r with
            | Some (k, r1) =>
                match skip_ws r1 with
                | String c1 r2 =>
                    if Ascii.eqb c1 ":"%char then
                      match parse_value fuel' r2 with
                      | Some (v, r3) =>
                          match skip_ws r3 with
                          | String c2 r4 =>
                              if Ascii.eqb c2 ","%char then
                                match parse_members fuel' r4 with
                                | Some (d, r5) => Some ((k, v) :: d, r5)
                                | None => None
                                end
                              else if Ascii.eqb c2 "}"%char then Some ([(k, v)], r4)
                              else None
                          | EmptyString => None
                          end
                      | None => None
                      end
                    else None
                | EmptyString => None
                end
            | None => None
            end
          else None
      | EmptyString => None
      end
  end.

(** A decoded object holds each key once, the last value winning. *)
Fixpoint normalise (v : Value) : Value :=
  match v with
  | VList l => VList (map normalise l)
  | VDict d =>
      VDict (fold_left (fun acc kv => dict_set (fst kv) (normalise (snd kv)) acc) d [])
  | _ => v
  end.

Definition json_loads (s : string) : Result Value :=
  match parse_value (S (String.length s)) s with
  | Some (v, r) =>
      match skip_ws r with
      | EmptyString => Ok (normalise v)
      | _ => Err (JSONDecodeError "Extra data")
      end
  | None => Err (JSONDecodeError "Expecting value")
  end.

Definition required_fields : list string :=
  ["entityType"; "entityUrn"; "category"; "operation"].

Definition SchemaError (field : string) : PyExc :=
  {| exc_type := "AvroTypeException"; exc_msg := field; exc_frames := [] |}.

(** The required string fields of [o], in schema order. *)
Fixpoint read_required (fields : list string) (o : Dict Value)
  : Result (Dict Value) :=
  match fields with
  | [] => Ok []
  | f :: fields' =>
      match dict_get f o with
      | Some (VStr x) =>
          rbind (read_required fields' o) (fun d => Ok ((f, VStr x) :: d))
      | _ => Err (SchemaError f)
      end
  end.

Definition strict_to_obj (self : Dict Value) (tuples : bool)
  : Result (Dict Value) :=
  rbind (read_required required_fields self) (fun d =>
    Ok (d ++ [("parameters",
               match dict_get "parameters" self with
               | None | Some VNone => VNone
               | Some _ => VDict []
               end)])).

Definition strict_from_obj (v : Value) (tuples : bool) : Result (Dict Value) :=
  match v with
  | VDict o =>
      rbind (read_required required_fields o) (fun d =>
        Ok (d ++ [("parameters",
                   match dict_get "parameters" o with
                   | None | Some VNone => VNone
                   | Some _ => VRecord "ParametersClass" []
                   end)]))
  | _ => Err (SchemaError "record")
  end.

(** An entity-change event whose [parameters] hold a nested dictionary. *)
Definition sample_event : Dict Value :=
  [("entityType", VStr "dataset");
   ("entityUrn", VStr "urn:li:dataset:1");
   ("category", VStr "TAG");
   ("operation", VStr "ADD");
   ("parameters", VDict [("tag", VDict [("urn", VStr "urn:li:tag:pii"); ("rank", VInt 1)])])].

(** The record [start_pipeline("a", pipeline_a)] stores. *)
Definition spec_a : PipelineSpec.t :=
  PipelineSpec.mk "a" pipeline_a {| tid := 0; args := pipeline_a |}.

Definition sample_nested : list (string * Value) :=
  [("tag", VDict [("urn", VStr "urn:li:tag:pii"); ("rank", VInt 1)])].

(** What the reference strict serializer gives for [sample_event]. *)
Definition sample_strict : Dict Value :=
  [("entityType", VStr "dataset");
   ("entityUrn", VStr "urn:li:dataset:1");
   ("category", VStr "TAG");
   ("operation", VStr "ADD");
   ("parameters", VDict [])].

(** The text [as_json] gives for [sample_event]. *)
Definition sample_json : string :=
  Eval vm_compute in
    match EntityChangeEvent.as_json strict_to_obj json_dumps sample_event with
    | Ok s => s
    | _ => EmptyString
    end.

(** What [from_json] makes of that text. *)
Definition sample_parsed : Dict Value :=
  [("entityType", VStr "dataset");
   ("entityUrn", VStr "urn:li:dataset:1");
   ("category", VStr "TAG");
   ("operation", VStr "ADD");
   ("parameters", VRecord "ParametersClass" [])].

(** ** Runs of the manager *)

(** One step of a run: a call of a method of the manager, or the body of a
    worker running to its end. *)
Inductive Op :=
| OpStart (name : string) (pipeline : Pipeline.t)
| OpTerminate (name : string)
| OpTerminateAll
| OpWorker (t : Thread).

Definition run_op (env : list Effect -> Call -> Outcome) (op : Op) : M unit :=
  match op with
  | OpStart name pipeline => start_pipeline name pipeline
  | OpTerminate name => terminate_pipeline env name
  | OpTerminateAll => terminate_all env
  | OpWorker t => thread_body env t
  end.

(** The state after a sequence of steps, each one started in the state the
    previous one left, whatever it returned or raised. *)
Fixpoint run_ops (env : list Effect -> Call -> Outcome) (ops : list Op)
    (st : State) : State :=
  match ops with
  | [] => st
  | op :: ops' => run_ops env ops' (snd (run_op env op st))
  end.

(** The threads started so far are distinct objects, and every record
    holds a started thread whose argument is the record's pipeline. *)
Definition threads_wf (st : State) : Prop :=
  NoDup (map tid (started_threads (trace st))) /\
  Forall (fun t => tid t < next_tid st) (started_threads (trace st)) /\
  Forall (fun kv =>
            PipelineSpec.thread (snd kv) ∈ started_threads (trace st) /\
            args (PipelineSpec.thread (snd kv)) = PipelineSpec.pipeline (snd kv))
         (pipeline_registry st).

(** Collaborators whose [join()] never returns. *)
Definition join_blocks : list Effect -> Call -> Outcome :=
  fun _ c => match c with CJoin _ _ => Blocked | _ => Returned end.


(** An event whose [parameters] are [None], as the strict schema holds it. *)
Definition sample_plain_event : Dict Value :=
  [("entityType", VStr "dataset");
   ("entityUrn", VStr "urn:li:dataset:1");
   ("category", VStr "TAG");
   ("operation", VStr "ADD");
   ("parameters", VNone)].

Definition sample_plain_json : string :=
  Eval vm_compute in
    match json_dumps (VDict sample_plain_event) with
    | Ok s => s
    | _ => EmptyString
    end.

(** ** The model of [tests/unit/test_helpers.py] *)

(** The dictionary a reference points to. *)
Definition load (l : nat) (h : Heap) : option (Dict Value) := dicts h !! l.

(** A dictionary display ([{}], or the dictionary a constructor fills): a
    new dictionary in the heap. *)
Definition new_dict (d : Dict Value) (h : Heap) : nat * Heap :=
  (next_loc h,
   {| dicts := <[next_loc h := d]> (dicts h); next_loc := S (next_loc h) |}).

(** [d[k] = v] on the dictionary at [l]. *)
Definition store_setitem (l : nat) (k : string) (v : Value) (h : Heap) : Heap :=
  {| dicts := alter (dict_set k v) l (dicts h); next_loc := next_loc h |}.

(** Modelled from the spec: the class [EventEnvelope] of
    [datahub_actions/event/event.py], which is not among the sources; a
    type name, an event and a mutable [meta] dictionary, held by
    reference. *)
Record EventEnvelope := mkEnvelope {
  event_type : string;
  event : Obj;
  meta : nat
}.

(** The class statements of the sources: the bases of each class. The
    generated record classes derive from [DictWrapper]. *)
Definition bases (cls : string) : list string :=
  if String.eqb cls "MetadataChangeLogEvent" then ["MetadataChangeLogClass"; "Event"]
  else if String.eqb cls "EntityChangeEvent" then ["EntityChangeEventClass"; "Event"]
  else if String.eqb cls "TestEvent" then ["Event"; "DictWrapper"]
  else if String.eqb cls "MetadataChangeLogClass" then ["DictWrapper"]
  else if String.eqb cls "EntityChangeEventClass" then ["DictWrapper"]
  else [].

Fixpoint issubclass (depth : nat) (cls target : string) : bool :=
  String.eqb cls target ||
  match depth with
  | 0 => false
  | S depth' => existsb (fun b => issubclass depth' b target) (bases cls)
  end.

(** [isinstance(o, target)]; the hierarchy above is two levels deep. *)
Definition isinstance (o : Obj) (target : string) : bool :=
  issubclass 2 (obj_class o) target.

(** [v == s] for a string [s]. *)
Definition value_eq_str (v : Value) (s : string) : bool :=
  match v with
  | VStr x => String.eqb x s
  | _ => false
  end.

Module TestEvent.
(** [TestEvent(field)]: [DictWrapper.__init__] gives the object an empty
    field store, then [self._inner_dict["field"] = field]. *)
Definition __init__ (field : Value) (h : Heap) : Obj * Heap :=
  let '(l, h1) := new_dict [] h in
  let self := {| obj_class := "TestEvent"; _inner_dict := l |} in
  (self, obj_setitem self "field" field h1).

(** [obj["field"]] fails with [KeyError] on a dictionary without the key
    and with [TypeError] on a value that is no dictionary. *)
Definition from_obj (obj : Value) (h : Heap) : Result Obj * Heap :=
  match obj with
  | VDict d =>
      match dict_get "field" d with
      | Some field => let '(self, h') := __init__ field h in (Ok self, h')
      | None => (Err (KeyError "field"), h)
      end
  | _ => (Err (TypeError "object is not subscriptable"), h)
  end.

(** [to_obj] returns the field store itself, not a copy. *)
Definition to_obj (self : Obj) : nat := _inner_dict self.

Section Json.
Variable dumps : Value -> Result string.
Variable loads : string -> Result Value.

Definition from_json (json_str : string) (h : Heap) : Result Obj * Heap :=
  match loads json_str with
  | Ok json_obj => from_obj json_obj h
  | Err e => (Err e, h)
  | Hang => (Hang, h)
  end.

Definition as_json (self : Obj) (h : Heap) : Result string :=
  match load (to_obj self) h with
  | Some d => dumps (VDict d)
  | None => Err (TypeError "no field store")
  end.
End Json.
End TestEvent.

Module TestEventSource.
Record t := mk { ack_count : Z }.

(** [events()]: three envelopes, each with a new empty [meta]; the third
    carries a new [TestEvent("value")]. The first two carry the events
    built when the module is loaded. *)
Definition events (metadata_change_log_event entity_change_event : Obj)
    (h : Heap) : list EventEnvelope * Heap :=
  let '(m1, h1) := new_dict [] h in
  let '(m2, h2) := new_dict [] h1 in
  let '(test_event, h3) := TestEvent.__init__ (VStr "value") h2 in
  let '(m3, h4) := new_dict [] h3 in
  ([ {| event_type := "MetadataChangeLogEvent";
        event := metadata_change_log_event; meta := m1 |};
     {| event_type := "EntityChangeLogEvent";
        event := entity_change_event; meta := m2 |};
     {| event_type := "TestEvent"; event := test_event; meta := m3 |} ],
   h4).

Definition ack (self : t) (event : EventEnvelope) : t :=
  {| ack_count := (ack_count self + 1)%Z |}.
End TestEventSource.

Module TestTransformer.
(** [event.meta["test"] = ":)"], and the same envelope is returned. *)
Definition transform (event : EventEnvelope) (h : Heap)
  : option EventEnvelope * Heap :=
  (Some event, store_setitem (meta event) "test" (VStr ":)") h).
End TestTransformer.

Module TestAction.
Record t := mk {
  total_event_count : Z;
  mcl_count : Z;
  ece_count : Z;
  skipped_count : Z;
  smiley_count : Z
}.

Definition create : t := mk 0 0 0 0 0.

Definition act (self : t) (event_env : EventEnvelope) (h : Heap)
  : Result unit * t :=
  let self :=
    mk (total_event_count self + 1) (mcl_count self) (ece_count self)
       (skipped_count self) (smiley_count self) in
  (* event_env.meta["test"] *)
  match load (meta event_env) h with
  | None => (Err (TypeError "no meta"), self)
  | Some m =>
      match dict_get "test" m with
      | None => (Err (KeyError "test"), self)
      | Some v =>
          let self :=
            if value_eq_str v ":)" then
              mk (total_event_count self) (mcl_count self) (ece_count self)
                 (skipped_count self) (smiley_count self + 1)
            else self in
          if isinstance (event event_env) "MetadataChangeLogClass" then
            (Ok tt,
             mk (total_event_count self) (mcl_count self + 1) (ece_count self)
                (skipped_count self) (smiley_count self))
          else if isinstance (event event_env) "EntityChangeEventClass" then
            (Ok tt,
             mk (total_event_count self) (mcl_count self) (ece_count self + 1)
                (skipped_count self) (smiley_count self))
          else
            (Ok tt,
             mk (total_event_count self) (mcl_count self) (ece_count self)
                (skipped_count self + 1) (smiley_count self))
      end
  end%Z.

(** [act] on each envelope in turn, going on after one that raised; the
    number of those that raised is counted beside. *)
Fixpoint act_all (self : t) (envs : list EventEnvelope) (h : Heap) : t * Z :=
  match envs with
  | [] => (self, 0%Z)
  | e :: envs' =>
      let '(r, self') := act self e h in
      let '(self'', failed) := act_all self' envs' h in
      (self'', match r with Ok _ => failed | _ => (failed + 1)%Z end)
  end.
End TestAction.

Module StoppableEventSource.
(** The source and the generator [events()] returned: [exhausted] is set
    once the generator has returned. *)
Record t := mk { stopped : bool; exhausted : bool }.

Definition create : t := mk false false.

Definition close (self : t) : t := mk true (exhausted self).

(** One pull of the generator (the [time.sleep(1)] of each round is not
    modelled): it returns when [stopped] is set, and yields an envelope of
    the module's change-log event with a new empty [meta] otherwise. *)
Definition next (self : t) (metadata_change_log_event : Obj) (h : Heap)
  : option EventEnvelope * t * Heap :=
  if exhausted self then (None, self, h)
  else if stopped self then (None, mk true true, h)
  else
    let '(m, h') := new_dict [] h in
    (Some {| event_type := "MetadataChangeLogEvent";
             event := metadata_change_log_event; meta := m |},
     self, h').

(** [n] pulls in a row. *)
Fixpoint pulls (n : nat) (self : t) (metadata_change_log_event : Obj)
    (h : Heap) : list EventEnvelope * t * Heap :=
  match n with
  | 0 => ([], self, h)
  | S n' =>
      match next self metadata_change_log_event h with
      | (Some e, self', h') =>
          let '(es, self'', h'') := pulls n' self' metadata_change_log_event h' in
          (e :: es, self'', h'')
      | (None, self', h') => ([], self', h')
      end
  end.
End StoppableEventSource.

(** A heap with the stores of the two events built when the test module
    is loaded. *)
Definition helpers_heap : Heap :=
  {| dicts := {[ 0 := [("entityType", VStr "dataset")];
                 1 := [("entityType", VStr "dataset")] ]};
     next_loc := 2 |}.

Definition metadata_change_log_event : Obj :=
  {| obj_class := "MetadataChangeLogEvent"; _inner_dict := 0 |}.

Definition entity_change_event : Obj :=
  {| obj_class := "EntityChangeEvent"; _inner_dict := 1 |}.

(** The transformer applied to each envelope in turn. *)
Definition transform_all (envs : list EventEnvelope) (h : Heap) : Heap :=
  fold_left (fun h e => snd (TestTransformer.transform e h)) envs h.

(** The counter [TestAction.act] advances for an event, by its class. *)
Definition count_event (self : TestAction.t) (event : Obj) : TestAction.t :=
  if isinstance event "MetadataChangeLogClass" then
    TestAction.mk (TestAction.total_event_count self)
      (TestAction.mcl_count self + 1) (TestAction.ece_count self)
      (TestAction.skipped_count self) (TestAction.smiley_count self)
  else if isinstance event "EntityChangeEventClass" then
    TestAction.mk (TestAction.total_event_count self)
      (TestAction.mcl_count self) (TestAction.ece_count self + 1)
      (TestAction.skipped_count self) (TestAction.smiley_count self)
  else
    TestAction.mk (TestAction.total_event_count self)
      (TestAction.mcl_count self) (TestAction.ece_count self)
      (TestAction.skipped_count self + 1) (TestAction.smiley_count self).

(* ===================================================================== *)
(** * Part II: properties                                                 *)
(* ===================================================================== *)

(** ** Dictionaries *)

Section PyDictFacts.
Context {V : Type}.
Implicit Types (d : Dict V) (k : string) (v : V).

Lemma dict_contains_true k d :
  dict_contains k d = true <-> is_Some (dict_get k d).
Proof.
  unfold dict_contains.
  destruct (dict_get k d); split; intros H;
    first [ done | by eexists | by destruct H ].
Qed.

Lemma dict_contains_false k d :
  dict_contains k d = false <-> dict_get k d = None.
Proof. unfold dict_contains. by destruct (dict_get k d). Qed.

Lemma dict_get_set_eq k v d : dict_get k (dict_set k v d) = Some v.
Proof.
  induction d as [|[k' v'] d IH]; simpl.
  - by rewrite String.eqb_refl.
  - destruct (String.eqb_spec k k') as [->|Hne]; simpl.
    + by rewrite String.eqb_refl.
    + destruct (String.eqb_spec k k'); [done | exact IH].
Qed.

Lemma dict_get_set_ne k k' v d :
  k <> k' -> dict_get k' (dict_set k v d) = dict_get k' d.
Proof.
  intros Hne. induction d as [|[k0 v0] d IH]; simpl.
  - destruct (String.eqb_spec k' k); [congruence | done].
  - destruct (String.eqb_spec k k0) as [->|Hk]; simpl.
    + destruct (String.eqb_spec k' k0); [congruence | done].
    + destruct (String.eqb_spec k' k0); [done | exact IH].
Qed.

Lemma dict_get_None_keys k d : dict_get k d = None <-> k ∉ dict_keys d.
Proof.
  induction d as [|[k' v'] d IH]; simpl.
  - split; [intros _; apply not_elem_of_nil | done].
  - rewrite not_elem_of_cons.
    destruct (String.eqb_spec k k') as [->|Hne]; split; try done.
    + by intros [? _].
    + intros H. split; [done | by apply IH].
    + intros [_ H]. by apply IH.
Qed.

Lemma dict_get_elem_of k v d : dict_get k d = Some v -> (k, v) ∈ d.
Proof.
  induction d as [|[k' v'] d IH]; simpl; [done |].
  destruct (String.eqb_spec k k') as [->|Hne].
  - intros [= ->]. apply elem_of_cons. by left.
  - intros H. apply elem_of_cons. right. by apply IH.
Qed.

Lemma dict_elem_of_get k v d :
  NoDup (dict_keys d) -> (k, v) ∈ d -> dict_get k d = Some v.
Proof.
  induction d as [|[k' v'] d IH]; simpl.
  - intros _ H. by apply elem_of_nil in H.
  - intros Hnd Hin. apply NoDup_cons in Hnd as [Hk' Hnd].
    apply elem_of_cons in Hin as [[= -> ->]|Hin].
    + by rewrite String.eqb_refl.
    + destruct (String.eqb_spec k k') as [->|Hne].
      * exfalso. apply Hk'. apply list_elem_of_fmap. by exists (k', v).
      * by apply IH.
Qed.

Lemma dict_keys_set_present k v d :
  is_Some (dict_get k d) -> dict_keys (dict_set k v d) = dict_keys d.
Proof.
  induction d as [|[k' v'] d IH]; simpl.
  - by intros [? ?].
  - destruct (String.eqb_spec k k') as [->|Hne]; simpl; [done |].
    intros H. by rewrite IH.
Qed.

Lemma dict_keys_set_absent k v d :
  dict_get k d = None -> dict_keys (dict_set k v d) = dict_keys d ++ [k].
Proof.
  induction d as [|[k' v'] d IH]; simpl; [done |].
  destruct (String.eqb_spec k k') as [->|Hne]; simpl; [done |].
  intros H. by rewrite IH.
Qed.

Lemma dict_set_NoDup k v d :
  NoDup (dict_keys d) -> NoDup (dict_keys (dict_set k v d)).
Proof.
  intros Hnd. destruct (dict_get k d) as [v0|] eqn:Hget.
  - by rewrite dict_keys_set_present.
  - rewrite dict_keys_set_absent by done.
    apply NoDup_app. split; [done |]. split.
    + intros x Hx Hx'. apply list_elem_of_singleton in Hx' as ->.
      by apply dict_get_None_keys in Hget.
    + apply NoDup_singleton.
Qed.

Lemma dict_set_elem_of k v d x :
  x ∈ dict_set k v d -> x = (k, v) \/ x ∈ d.
Proof.
  induction d as [|[k' v'] d IH]; simpl.
  - intros H. apply list_elem_of_singleton in H. by left.
  - destruct (String.eqb_spec k k') as [->|Hne]; intros H;
      apply elem_of_cons in H as [->|H].
    + by left.
    + right. apply elem_of_cons. by right.
    + right. apply elem_of_cons. by left.
    + destruct (IH H) as [->|H']; [by left |].
      right. apply elem_of_cons. by right.
Qed.

Lemma dict_del_is_Some k d :
  is_Some (dict_get k d) -> is_Some (dict_del k d).
Proof.
  induction d as [|[k' v'] d IH]; simpl.
  - by intros [? ?].
  - destruct (String.eqb_spec k k'); [by eexists |].
    intros H. destruct (IH H) as [d' ->]. by eexists.
Qed.

Lemma dict_del_None k d : dict_get k d = None -> dict_del k d = None.
Proof.
  induction d as [|[k' v'] d IH]; simpl; [done |].
  destruct (String.eqb_spec k k'); [done |].
  intros H. by rewrite IH.
Qed.

Lemma dict_del_get_ne k k' d d' :
  dict_del k d = Some d' -> k <> k' -> dict_get k' d' = dict_get k' d.
Proof.
  revert d'. induction d as [|[k0 v0] d IH]; simpl; intros d' Hdel Hne;
    [done |].
  destruct (String.eqb_spec k k0) as [->|Hk].
  - injection Hdel as <-. destruct (String.eqb_spec k' k0); [congruence | done].
  - destruct (dict_del k d) as [d''|] eqn:Hd; [|done].
    injection Hdel as <-. simpl.
    destruct (String.eqb_spec k' k0); [done | by apply IH].
Qed.

Lemma dict_del_elem_of k d d' x :
  dict_del k d = Some d' -> x ∈ d' -> x ∈ d.
Proof.
  revert d'. induction d as [|[k0 v0] d IH]; simpl; intros d' Hdel Hin;
    [done |].
  destruct (String.eqb_spec k k0) as [->|Hk].
  - injection Hdel as <-. apply elem_of_cons. by right.
  - destruct (dict_del k d) as [d''|] eqn:Hd; [|done].
    injection Hdel as <-. apply elem_of_cons in Hin as [->|Hin].
    + apply elem_of_cons. by left.
    + apply elem_of_cons. right. by eapply IH.
Qed.

Lemma dict_del_keys k d d' :
  dict_del k d = Some d' -> forall x, x ∈ dict_keys d' -> x ∈ dict_keys d.
Proof.
  intros Hdel x Hx. apply list_elem_of_fmap in Hx as [[k0 v0] [-> Hin]].
  apply list_elem_of_fmap. exists (k0, v0). split; [done |].
  by eapply dict_del_elem_of.
Qed.

Lemma dict_del_NoDup k d d' :
  NoDup (dict_keys d) -> dict_del k d = Some d' -> NoDup (dict_keys d').
Proof.
  revert d'. induction d as [|[k0 v0] d IH]; simpl; intros d' Hnd Hdel;
    [done |].
  apply NoDup_cons in Hnd as [Hk0 Hnd].
  destruct (String.eqb_spec k k0) as [->|Hk].
  - by injection Hdel as <-.
  - destruct (dict_del k d) as [d''|] eqn:Hd; [|done].
    injection Hdel as <-. simpl. apply NoDup_cons. split; [|by apply IH].
    intros Hin. apply Hk0. by eapply dict_del_keys.
Qed.

Lemma dict_del_get_eq k d d' :
  NoDup (dict_keys d) -> dict_del k d = Some d' -> dict_get k d' = None.
Proof.
  revert d'. induction d as [|[k0 v0] d IH]; simpl; intros d' Hnd Hdel;
    [done |].
  apply NoDup_cons in Hnd as [Hk0 Hnd].
  destruct (String.eqb_spec k k0) as [->|Hk].
  - injection Hdel as <-. by apply dict_get_None_keys.
  - destruct (dict_del k d) as [d''|] eqn:Hd; [|done].
    injection Hdel as <-. simpl.
    destruct (String.eqb_spec k k0); [done | by apply IH].
Qed.

Lemma dict_del_length k d d' :
  dict_del k d = Some d' -> length d = S (length d').
Proof.
  revert d'. induction d as [|[k0 v0] d IH]; simpl; intros d' Hdel; [done |].
  destruct (String.eqb_spec k k0) as [->|Hk].
  - by injection Hdel as <-.
  - destruct (dict_del k d) as [d''|] eqn:Hd; [|done].
    injection Hdel as <-. simpl. f_equal. by apply IH.
Qed.
End PyDictFacts.

(** ** The pipeline manager *)

Lemma calls_of_app (a b : list Effect) :
  calls_of (a ++ b) = calls_of a ++ calls_of b.
Proof. unfold calls_of. apply omap_app. Qed.

Lemma started_threads_app (a b : list Effect) :
  started_threads (a ++ b) = started_threads a ++ started_threads b.
Proof. unfold started_threads. apply omap_app. Qed.

Lemma stop_count_app (p : Pipeline.t) (a b : list Effect) :
  stop_count p (a ++ b) = stop_count p a + stop_count p b.
Proof. unfold stop_count. by rewrite List.filter_app, length_app. Qed.

Lemma pipeline_eqb_eq (p q : Pipeline.t) : pipeline_eqb p q = true <-> p = q.
Proof.
  destruct p as [i n], q as [j m]. unfold pipeline_eqb. simpl.
  rewrite andb_true_iff, Nat.eqb_eq, String.eqb_eq.
  split; [by intros [-> ->] | by intros [= -> ->]].
Qed.

Lemma pipeline_eqb_refl (p : Pipeline.t) : pipeline_eqb p p = true.
Proof. by apply pipeline_eqb_eq. Qed.

Section ManagerFacts.
Variable env : list Effect -> Call -> Outcome.

Lemma terminate_pipeline_absent (name : string) (st : State) :
  dict_get name (pipeline_registry st) = None ->
  terminate_pipeline env name st =
    (Err (NotFound name),
     emit (ELog DEBUG
             ("Attempting to terminate pipeline with name " +:+ name +:+ "..."))
          st).
Proof.
  intros Hget. unfold terminate_pipeline, bind, logger, get_registry. cbn.
  unfold dict_contains. by rewrite Hget.
Qed.

(** The whole behaviour of [terminate_pipeline] on a registered name, one
    collaborator call after the other. *)
Lemma terminate_pipeline_present (name : string) (st : State)
    (spec : PipelineSpec.t) :
  dict_get name (pipeline_registry st) = Some spec ->
  let p := PipelineSpec.pipeline spec in
  let t := PipelineSpec.thread spec in
  terminate_pipeline env name st =
    match env (at_stop name st) (CStop p) with
    | Raised e => terminate_failed name e (at_join name spec st) st
    | Blocked => terminate_hung (at_join name spec st) st
    | Returned =>
      match env (at_join name spec st) (CJoin t None) with
      | Raised e =>
          terminate_failed name e
            (at_join name spec st ++ [ECall (CJoin t None)]) st
      | Blocked => terminate_hung (at_join name spec st ++ [ECall (CJoin t None)]) st
      | Returned =>
        match env (at_stats name spec st) (CStats p) with
        | Raised e => terminate_failed name e (at_print name spec st) st
        | Blocked => terminate_hung (at_print name spec st) st
        | Returned =>
          let tr := at_print name spec st ++ [ECall (CPrettyPrintSummary p name)] in
          match env (at_print name spec st) (CPrettyPrintSummary p name) with
          | Raised e => terminate_failed name e tr st
          | Blocked => terminate_hung tr st
          | Returned =>
            match dict_del name (pipeline_registry st) with
            | Some d =>
                (Ok tt,
                 {| pipeline_registry := d; trace := tr; next_tid := next_tid st |})
            | None => terminate_failed name (KeyError name) tr st
            end
          end
        end
      end
    end.
Proof.
  intros Hget p t.
  unfold terminate_pipeline, bind, try_except, logger, get_registry,
    registry_getitem, registry_delitem, call, raise,
    terminate_failed, terminate_hung, at_print, at_stats, at_join, at_stop.
  cbn. unfold dict_contains. rewrite Hget. cbn. rewrite Hget. cbn.
  fold p t.
  repeat match goal with
         | |- context [match env ?tr ?c with _ => _ end] =>
             destruct (env tr c); cbn; try reflexivity
         end.
  destruct (dict_del name (pipeline_registry st)); reflexivity.
Qed.

(** C3. [terminate_pipeline name]: on a name that is not registered it
    raises the not-found exception and leaves the registry as it was; on a
    registered name it calls [stop()], then [join()] with no timeout, then
    [stats()] and [pretty_print_summary(name)], each one only after the
    previous returned, and once all returned it deletes the record of
    [name] and nothing else. *)
Theorem terminate_pipeline_spec (name : string) (st : State) :
  NoDup (dict_keys (pipeline_registry st)) ->
  exists r st' eff,
    terminate_pipeline env name st = (r, st') /\
    trace st' = trace st ++ eff /\
    match dict_get name (pipeline_registry st) with
    | None =>
        r = Err (NotFound name) /\
        pipeline_registry st' = pipeline_registry st /\
        calls_of eff = []
    | Some spec =>
        let p := PipelineSpec.pipeline spec in
        let t := PipelineSpec.thread spec in
        calls_of eff `prefix_of` terminate_calls name spec /\
        (r = Ok tt ->
           calls_of eff = terminate_calls name spec /\
           dict_del name (pipeline_registry st) = Some (pipeline_registry st') /\
           dict_get name (pipeline_registry st') = None /\
           length (pipeline_registry st) = S (length (pipeline_registry st')) /\
           forall k, k <> name ->
             dict_get k (pipeline_registry st') = dict_get k (pipeline_registry st)) /\
        (env (at_stop name st) (CStop p) = Returned ->
         env (at_join name spec st) (CJoin t None) = Returned ->
         env (at_stats name spec st) (CStats p) = Returned ->
         env (at_print name spec st) (CPrettyPrintSummary p name) = Returned ->
         r = Ok tt)
    end.
Proof.
  intros Hnd. destruct (dict_get name (pipeline_registry st)) as [spec|] eqn:Hget.
  - rewrite (terminate_pipeline_present name st spec Hget).
    destruct (dict_del_is_Some name (pipeline_registry st)) as [d Hdel];
      [by eexists |].
    rewrite Hdel. cbn zeta.
    unfold terminate_failed, terminate_hung, at_print, at_stats, at_join, at_stop.
    repeat match goal with
           | |- context [match env ?tr ?c with _ => _ end] =>
               destruct (env tr c)
           end;
      (eexists _, _, _; split; [reflexivity |]; split;
       [cbn; rewrite <- ?app_assoc; reflexivity |]; cbn;
       split; [by eexists |]; split; [|done]; intros Hr; try discriminate Hr).
    split; [done |]. split; [done |].
    split; [by eapply dict_del_get_eq |].
    split; [by eapply dict_del_length |].
    intros k Hk. by eapply dict_del_get_ne.
  - rewrite (terminate_pipeline_absent name st Hget).
    eexists _, _, _. split; [reflexivity |]. split; [reflexivity |]. done.
Qed.

(** C4. When [stop()] raises, or [stop()] returns and [join()] raises,
    [terminate_pipeline name] keeps the record of [name], logs the
    traceback and raises the termination-failure exception; [stats()] is
    not reached. *)
Theorem terminate_stop_or_join_raises (name : string) (st : State)
    (spec : PipelineSpec.t) (e : PyExc) :
  dict_get name (pipeline_registry st) = Some spec ->
  let p := PipelineSpec.pipeline spec in
  let t := PipelineSpec.thread spec in
  env (at_stop name st) (CStop p) = Raised e \/
  (env (at_stop name st) (CStop p) = Returned /\
   env (at_join name spec st) (CJoin t None) = Raised e) ->
  exists st' eff,
    terminate_pipeline env name st = (Err (TerminationFailed name), st') /\
    pipeline_registry st' = pipeline_registry st /\
    dict_get name (pipeline_registry st') = Some spec /\
    trace st' = trace st ++ eff /\
    calls_of eff `prefix_of` [CStop p; CJoin t None] /\
    last eff = Some (terminate_error_log name e).
Proof.
  intros Hget p t Hraise.
  rewrite (terminate_pipeline_present name st spec Hget). cbn zeta. fold p t.
  destruct Hraise as [Hstop | [Hstop Hjoin]]; rewrite Hstop; [|rewrite Hjoin];
    unfold terminate_failed, at_join, at_stop;
    (eexists _, _; split; [reflexivity |]; cbn; split; [done |];
     split; [done |]; split; [rewrite <- ?app_assoc; reflexivity |];
     cbn; split; [by eexists | done]).
Qed.

(** C10. When [stop()] and [join()] returned and the statistics report
    ([stats()] or [pretty_print_summary(name)]) raises,
    [terminate_pipeline name] keeps the record of [name] and raises the
    same termination-failure exception. *)
Theorem terminate_stats_raises (name : string) (st : State)
    (spec : PipelineSpec.t) (e : PyExc) :
  dict_get name (pipeline_registry st) = Some spec ->
  let p := PipelineSpec.pipeline spec in
  let t := PipelineSpec.thread spec in
  env (at_stop name st) (CStop p) = Returned ->
  env (at_join name spec st) (CJoin t None) = Returned ->
  env (at_stats name spec st) (CStats p) = Raised e \/
  (env (at_stats name spec st) (CStats p) = Returned /\
   env (at_print name spec st) (CPrettyPrintSummary p name) = Raised e) ->
  exists st' eff,
    terminate_pipeline env name st = (Err (TerminationFailed name), st') /\
    pipeline_registry st' = pipeline_registry st /\
    dict_get name (pipeline_registry st') = Some spec /\
    trace st' = trace st ++ eff /\
    [CStop p; CJoin t None; CStats p] `prefix_of` calls_of eff /\
    last eff = Some (terminate_error_log name e).
Proof.
  intros Hget p t Hstop Hjoin Hraise.
  rewrite (terminate_pipeline_present name st spec Hget). cbn zeta. fold p t.
  rewrite Hstop, Hjoin.
  destruct Hraise as [Hstats | [Hstats Hprint]]; rewrite Hstats;
    [|rewrite Hprint];
    unfold terminate_failed, at_print, at_stats, at_join, at_stop;
    (eexists _, _; split; [reflexivity |]; cbn; split; [done |];
     split; [done |]; split; [rewrite <- ?app_assoc; reflexivity |];
     cbn; split; [by eexists | done]).
Qed.

(** Whatever goes wrong, a failed [terminate_pipeline] leaves the registry
    as it found it. *)
Lemma terminate_pipeline_not_ok (name : string) (st st' : State)
    (r : Result unit) :
  terminate_pipeline env name st = (r, st') -> r <> Ok tt ->
  pipeline_registry st' = pipeline_registry st.
Proof.
  intros Hterm Hr.
  destruct (dict_get name (pipeline_registry st)) as [spec|] eqn:Hget.
  - rewrite (terminate_pipeline_present name st spec Hget) in Hterm.
    cbn zeta in Hterm. unfold terminate_failed, terminate_hung in Hterm.
    repeat match type of Hterm with
           | context [match env ?tr ?c with _ => _ end] => destruct (env tr c)
           end;
      try (by injection Hterm as <- <-).
    destruct (dict_del name (pipeline_registry st));
      injection Hterm as <- <-; [by destruct Hr | done].
  - rewrite (terminate_pipeline_absent name st Hget) in Hterm.
    by injection Hterm as <- <-.
Qed.

(** A successful [terminate_pipeline]: the four calls and the deletion. *)
Lemma terminate_pipeline_ok (name : string) (st st' : State)
    (spec : PipelineSpec.t) :
  dict_get name (pipeline_registry st) = Some spec ->
  terminate_pipeline env name st = (Ok tt, st') ->
  dict_del name (pipeline_registry st) = Some (pipeline_registry st') /\
  trace st' =
    at_print name spec st ++
    [ECall (CPrettyPrintSummary (PipelineSpec.pipeline spec) name)] /\
  next_tid st' = next_tid st.
Proof.
  intros Hget Hterm.
  rewrite (terminate_pipeline_present name st spec Hget) in Hterm.
  cbn zeta in Hterm. unfold terminate_failed, terminate_hung in Hterm.
  repeat match type of Hterm with
         | context [match env ?tr ?c with _ => _ end] => destruct (env tr c)
         end;
    try discriminate Hterm.
  destruct (dict_del name (pipeline_registry st)); [|discriminate Hterm].
  by injection Hterm as <-.
Qed.

Lemma for_each_app {A} (xs ys : list A) (body : A -> M unit) (st : State) :
  for_each (xs ++ ys) body st =
    match for_each xs body st with
    | (Ok _, st1) => for_each ys body st1
    | (Err e, st1) => (Err e, st1)
    | (Hang, st1) => (Hang, st1)
    end.
Proof.
  revert st. induction xs as [|x xs IH]; intros st; simpl; [done |].
  unfold bind. destruct (body x st) as [[[]|e|] st1]; [apply IH | done | done].
Qed.

Lemma terminate_all_unfold (st : State) :
  terminate_all env st =
    match for_each (dict_keys (pipeline_registry st)) (terminate_pipeline env)
            (emit (ELog DEBUG "Attempting to terminate all running pipelines...") st)
    with
    | (Ok _, st1) =>
        (Ok tt, emit (ELog DEBUG "Successfully terminated all running pipelines.") st1)
    | (Err e, st1) => (Err e, st1)
    | (Hang, st1) => (Hang, st1)
    end.
Proof.
  unfold terminate_all, bind, logger, get_registry. cbn.
  by destruct (for_each _ _ _) as [[[]|e|] st1].
Qed.

(** Terminating the keys of the registry, in order, when every
    [terminate_pipeline] succeeds: the registry ends empty and every
    record's pipeline was stopped once. *)
Lemma terminate_keys_ok (d : Dict PipelineSpec.t) :
  forall st st',
    pipeline_registry st = d ->
    for_each (dict_keys d) (terminate_pipeline env) st = (Ok tt, st') ->
    pipeline_registry st' = [] /\
    forall p,
      stop_count p (trace st') =
      stop_count p (trace st) +
      length (List.filter (fun spec => pipeline_eqb p (PipelineSpec.pipeline spec))
                (dict_values d)).
Proof.
  induction d as [|[k spec] d IH]; intros st st' Hreg Hrun; simpl in Hrun.
  - injection Hrun as <-. split; [done |]. intros p. simpl. lia.
  - unfold bind in Hrun.
    destruct (terminate_pipeline env k st) as [[[]|e|] st1] eqn:Hterm;
      try discriminate Hrun.
    assert (Hget : dict_get k (pipeline_registry st) = Some spec).
    { rewrite Hreg. simpl. by rewrite String.eqb_refl. }
    destruct (terminate_pipeline_ok k st st1 spec Hget Hterm)
      as (Hdel & Htr & _).
    rewrite Hreg in Hdel. simpl in Hdel. rewrite String.eqb_refl in Hdel.
    injection Hdel as Hd.
    destruct (IH st1 st' (eq_sym Hd) Hrun) as [Hempty Hcount].
    split; [done |]. intros p. rewrite Hcount, Htr.
    unfold at_print, at_stats, at_join, at_stop.
    rewrite !stop_count_app. unfold stop_count at 2 3 4 5 6 7. simpl.
    destruct (pipeline_eqb p (PipelineSpec.pipeline spec)); simpl; lia.
Qed.

(** With collaborators that return, terminating the keys succeeds. *)
Lemma terminate_keys_total (d : Dict PipelineSpec.t) :
  (forall h c, env h c = Returned) ->
  forall st, pipeline_registry st = d ->
    exists st', for_each (dict_keys d) (terminate_pipeline env) st = (Ok tt, st').
Proof.
  intros Henv. induction d as [|[k spec] d IH]; intros st Hreg; simpl.
  - by eexists.
  - assert (Hget : dict_get k (pipeline_registry st) = Some spec).
    { rewrite Hreg. simpl. by rewrite String.eqb_refl. }
    unfold bind. rewrite (terminate_pipeline_present k st spec Hget).
    cbn zeta. rewrite !Henv, Hreg. simpl. rewrite String.eqb_refl.
    by apply IH.
Qed.
End ManagerFacts.

(** In a well-formed registry the pipeline of a record occurs in no other
    record. *)
Lemma registry_wf_tail (kv : string * PipelineSpec.t) (d : Dict PipelineSpec.t) :
  registry_wf (kv :: d) -> registry_wf d.
Proof.
  intros [Hnd Hall]. split.
  - by apply NoDup_cons in Hnd as [_ ?].
  - by apply Forall_cons in Hall as [_ ?].
Qed.

Lemma registry_wf_absent (p : Pipeline.t) (d : Dict PipelineSpec.t) :
  Forall (fun kv => fst kv = Pipeline.name (PipelineSpec.pipeline (snd kv))) d ->
  Pipeline.name p ∉ dict_keys d ->
  List.filter (fun spec => pipeline_eqb p (PipelineSpec.pipeline spec))
    (dict_values d) = [].
Proof.
  induction d as [|[k spec] d IH]; intros Hall Hk; simpl; [done |].
  apply Forall_cons in Hall as [Hhd Hall]. simpl in *.
  apply not_elem_of_cons in Hk as [Hne Hk].
  destruct (pipeline_eqb p (PipelineSpec.pipeline spec)) eqn:Heq.
  - apply pipeline_eqb_eq in Heq. subst p. by destruct Hne.
  - by apply IH.
Qed.

Lemma registry_wf_once (d : Dict PipelineSpec.t) (k : string)
    (spec : PipelineSpec.t) :
  registry_wf d -> dict_get k d = Some spec ->
  length (List.filter
            (fun s => pipeline_eqb (PipelineSpec.pipeline spec) (PipelineSpec.pipeline s))
            (dict_values d)) = 1.
Proof.
  induction d as [|[k0 s0] d IH]; intros Hwf Hget; simpl in *; [done |].
  pose proof (registry_wf_tail _ _ Hwf) as Hwf'.
  destruct Hwf as [Hnd Hall].
  apply NoDup_cons in Hnd as [Hk0 Hnd].
  apply Forall_cons in Hall as [Hhd Hall]. simpl in Hhd.
  destruct (String.eqb_spec k k0) as [->|Hne].
  - injection Hget as <-. rewrite pipeline_eqb_refl. simpl.
    rewrite registry_wf_absent; [done | done | by rewrite <- Hhd].
  - destruct (pipeline_eqb (PipelineSpec.pipeline spec) (PipelineSpec.pipeline s0))
      eqn:Heq; [|by apply IH].
    apply pipeline_eqb_eq in Heq. exfalso. apply Hne.
    apply dict_get_elem_of in Hget.
    rewrite Forall_forall in Hall. specialize (Hall _ Hget). simpl in Hall.
    by rewrite Hall, Heq.
Qed.

Section ManagerClaims.
Variable env : list Effect -> Call -> Outcome.

(** C5. [terminate_all] takes the names registered when it is called, in
    the order of the registry, and terminates them one after the other:
    the first [terminate_pipeline] that does not succeed ends the loop with
    its result and its state, so nothing is done for the names after it;
    when the whole call succeeds the registry is empty and the pipeline of
    every record that was registered has had [stop()] called exactly once
    more; with collaborators that return, the call succeeds. *)
Theorem terminate_all_spec (st : State) :
  registry_wf (pipeline_registry st) ->
  let st0 :=
    emit (ELog DEBUG "Attempting to terminate all running pipelines...") st in
  (forall done name rest st1 r st2,
      dict_keys (pipeline_registry st) = done ++ name :: rest ->
      for_each done (terminate_pipeline env) st0 = (Ok tt, st1) ->
      terminate_pipeline env name st1 = (r, st2) ->
      r <> Ok tt ->
      terminate_all env st = (r, st2) /\
      pipeline_registry st2 = pipeline_registry st1) /\
  (forall st',
      terminate_all env st = (Ok tt, st') ->
      pipeline_registry st' = [] /\
      forall k spec,
        dict_get k (pipeline_registry st) = Some spec ->
        stop_count (PipelineSpec.pipeline spec) (trace st') =
        S (stop_count (PipelineSpec.pipeline spec) (trace st))) /\
  ((forall h c, env h c = Returned) ->
   exists st', terminate_all env st = (Ok tt, st')).
Proof.
  intros Hwf st0. split; [|split].
  - intros done name rest st1 r st2 Hkeys Hdone Hterm Hr.
    split; [|by eapply terminate_pipeline_not_ok].
    rewrite terminate_all_unfold, Hkeys, for_each_app. fold st0.
    rewrite Hdone. simpl. unfold bind. rewrite Hterm.
    destruct r as [[]|e|]; [by destruct Hr | done | done].
  - intros st' Hall. rewrite terminate_all_unfold in Hall. fold st0 in Hall.
    destruct (for_each _ _ st0) as [[[]|e|] st1] eqn:Hrun;
      try discriminate Hall.
    injection Hall as <-.
    destruct (terminate_keys_ok env (pipeline_registry st) st0 st1 eq_refl Hrun)
      as [Hempty Hcount].
    split; [done |]. intros k spec Hget.
    unfold emit at 1. unfold trace at 1.
    rewrite stop_count_app, Hcount, (registry_wf_once _ k spec Hwf Hget).
    unfold st0, emit. unfold trace at 1.
    rewrite stop_count_app.
    change (stop_count (PipelineSpec.pipeline spec) [ELog DEBUG _]) with 0.
    lia.
  - intros Henv.
    destruct (terminate_keys_total env (pipeline_registry st) Henv st0 eq_refl)
      as [st1 Hrun].
    rewrite terminate_all_unfold. fold st0. rewrite Hrun. by eexists.
Qed.

Lemma run_pipeline_raised (pipeline : Pipeline.t) (st : State) (e : PyExc) :
  env (trace st) (CRun pipeline) = Raised e ->
  let tr := (trace st ++ [ECall (CRun pipeline)]) ++ [crash_log pipeline e] in
  run_pipeline env pipeline st =
    match env tr (CStop pipeline) with
    | Returned =>
        (Ok tt,
         {| pipeline_registry := pipeline_registry st;
            trace := (tr ++ [ECall (CStop pipeline)]) ++
                     [ELog DEBUG ("Thread for pipeline with name " +:+
                                  Pipeline.name pipeline +:+ " has terminated.")];
            next_tid := next_tid st |})
    | Raised e' =>
        (Err e',
         {| pipeline_registry := pipeline_registry st;
            trace := tr ++ [ECall (CStop pipeline)];
            next_tid := next_tid st |})
    | Blocked =>
        (Hang,
         {| pipeline_registry := pipeline_registry st;
            trace := tr ++ [ECall (CStop pipeline)];
            next_tid := next_tid st |})
    end.
Proof.
  intros Hrun tr.
  unfold run_pipeline, bind, try_except, call, logger. cbn. rewrite Hrun. cbn.
  fold (crash_log pipeline e). fold tr.
  destruct (env tr (CStop pipeline)); reflexivity.
Qed.

(** C6. When [run()] raises [e], the worker body logs an error with the
    traceback of [e] cut to at most three entries, calls [stop()] once and
    ends (normally if [stop()] returns, with the exception of [stop()]
    otherwise). It makes no other call, starts nothing, and leaves the
    registry untouched: every record, the crashed pipeline's included,
    is still registered. *)
Theorem run_pipeline_crash (pipeline : Pipeline.t) (st : State) (e : PyExc) :
  env (trace st) (CRun pipeline) = Raised e ->
  exists r st' rest,
    run_pipeline env pipeline st = (r, st') /\
    trace st' =
      trace st ++
      [ECall (CRun pipeline); crash_log pipeline e; ECall (CStop pipeline)] ++
      rest /\
    length (format_exc_entries 3 e) <= 3 /\
    calls_of rest = [] /\
    started_threads rest = [] /\
    pipeline_registry st' = pipeline_registry st /\
    next_tid st' = next_tid st /\
    (forall name, dict_get name (pipeline_registry st') =
                  dict_get name (pipeline_registry st)) /\
    match env ((trace st ++ [ECall (CRun pipeline)]) ++ [crash_log pipeline e])
            (CStop pipeline) with
    | Returned => r = Ok tt
    | Raised e' => r = Err e'
    | Blocked => r = Hang
    end.
Proof.
  intros Hrun. rewrite (run_pipeline_raised pipeline st e Hrun). cbn zeta.
  assert (Hlen : length (format_exc_entries 3 e) <= 3).
  { unfold format_exc_entries. rewrite length_take. lia. }
  destruct (env _ (CStop pipeline));
    (eexists _, _, _; split; [reflexivity |]; cbn; split;
     [rewrite <- ?app_assoc; simpl; reflexivity |]; done).
Qed.

(** When [run()] returns, the worker body only logs that it ends. *)
Lemma run_pipeline_returned (pipeline : Pipeline.t) (st : State) :
  env (trace st) (CRun pipeline) = Returned ->
  exists st',
    run_pipeline env pipeline st = (Ok tt, st') /\
    calls_of (trace st') = calls_of (trace st) ++ [CRun pipeline] /\
    pipeline_registry st' = pipeline_registry st.
Proof.
  intros Hrun. unfold run_pipeline, bind, try_except, call, logger. cbn.
  rewrite Hrun. cbn. eexists. split; [reflexivity |]. cbn.
  rewrite !calls_of_app. simpl. by rewrite app_nil_r.
Qed.

(** The first thing a worker does is to call [run()] on its pipeline. *)
Lemma run_pipeline_first_call (pipeline : Pipeline.t) (st : State) :
  exists r st' rest,
    run_pipeline env pipeline st = (r, st') /\
    trace st' = trace st ++ ECall (CRun pipeline) :: rest.
Proof.
  unfold run_pipeline, bind, try_except, call, logger. cbn.
  destruct (env (trace st) (CRun pipeline)); cbn.
  - eexists _, _, _. split; [reflexivity |]. cbn.
    rewrite <- app_assoc. reflexivity.
  - destruct (env _ (CStop pipeline)); cbn;
      (eexists _, _, _; split; [reflexivity |]; cbn;
       rewrite <- ?app_assoc; reflexivity).
  - eexists _, _, _. split; [reflexivity |]. reflexivity.
Qed.
End ManagerClaims.

(** [start_pipeline] in one equation. *)
Lemma start_pipeline_eq (name : string) (pipeline : Pipeline.t) (st : State) :
  let worker := {| tid := next_tid st; args := pipeline |} in
  let attempt :=
    ELog DEBUG ("Attempting to start pipeline with name " +:+ name +:+ "...") in
  start_pipeline name pipeline st =
    if dict_contains name (pipeline_registry st) then
      (Err (AlreadyRunning name), emit attempt st)
    else
      (Ok tt,
       {| pipeline_registry :=
            dict_set (Pipeline.name pipeline)
              (PipelineSpec.mk name pipeline worker) (pipeline_registry st);
          trace :=
            ((trace st ++ [attempt]) ++ [EStart worker]) ++
            [ELog DEBUG ("Started pipeline with name " +:+ name +:+ ".")];
          next_tid := S (next_tid st) |}).
Proof.
  intros worker attempt.
  unfold start_pipeline, bind, logger, get_registry, new_thread, thread_start,
    registry_setitem, raise. cbn.
  by destruct (dict_contains name (pipeline_registry st)).
Qed.

(** C2. [start_pipeline name pipeline]: when [name] is a key of the registry
    it raises the already-running exception, starts no thread and leaves the
    registry as it was. Otherwise it creates and starts one new thread whose
    body is [run_pipeline pipeline] (which begins by calling [run()]), stores
    the record under the pipeline's own [name] attribute (not under the
    argument [name]) and returns; it makes no call into a collaborator, so
    it waits for nothing. *)
Theorem start_pipeline_spec (name : string) (pipeline : Pipeline.t) (st : State) :
  let worker := {| tid := next_tid st; args := pipeline |} in
  let spec := PipelineSpec.mk name pipeline worker in
  exists r st',
    start_pipeline name pipeline st = (r, st') /\
    calls_of (trace st') = calls_of (trace st) /\
    if dict_contains name (pipeline_registry st) then
      r = Err (AlreadyRunning name) /\
      pipeline_registry st' = pipeline_registry st /\
      started_threads (trace st') = started_threads (trace st)
    else
      r = Ok tt /\
      pipeline_registry st' =
        dict_set (Pipeline.name pipeline) spec (pipeline_registry st) /\
      dict_get (Pipeline.name pipeline) (pipeline_registry st') = Some spec /\
      (forall k, k <> Pipeline.name pipeline ->
         dict_get k (pipeline_registry st') = dict_get k (pipeline_registry st)) /\
      started_threads (trace st') = started_threads (trace st) ++ [worker] /\
      (forall env, thread_body env worker = run_pipeline env pipeline) /\
      (forall env st0, exists r0 st1 rest,
         thread_body env worker st0 = (r0, st1) /\
         trace st1 = trace st0 ++ ECall (CRun pipeline) :: rest).
Proof.
  intros worker spec. rewrite start_pipeline_eq. cbn zeta.
  destruct (dict_contains name (pipeline_registry st)).
  - eexists _, _. split; [reflexivity |]. cbn.
    rewrite calls_of_app, started_threads_app. simpl. by rewrite !app_nil_r.
  - eexists _, _. split; [reflexivity |]. cbn.
    rewrite !calls_of_app, !started_threads_app. simpl. rewrite !app_nil_r.
    split; [done |]. split; [done |]. split; [done |].
    split; [apply dict_get_set_eq |].
    split; [intros k Hk; by apply dict_get_set_ne |].
    split; [done |]. split; [done |].
    intros env st0. apply run_pipeline_first_call.
Qed.

(** [start_pipeline] keeps the registry well formed. *)
Lemma start_pipeline_wf (name : string) (pipeline : Pipeline.t) (st st' : State)
    (r : Result unit) :
  registry_wf (pipeline_registry st) ->
  start_pipeline name pipeline st = (r, st') ->
  registry_wf (pipeline_registry st').
Proof.
  intros [Hnd Hall] Hstart. rewrite start_pipeline_eq in Hstart. cbn zeta in Hstart.
  destruct (dict_contains name (pipeline_registry st));
    injection Hstart as <- <-; cbn.
  - by split.
  - split; [by apply dict_set_NoDup |].
    apply Forall_forall. intros x Hx.
    apply dict_set_elem_of in Hx as [->|Hx]; [done |].
    rewrite Forall_forall in Hall. by apply Hall.
Qed.

(** [terminate_pipeline] keeps the registry well formed. *)
Lemma terminate_pipeline_wf (env : list Effect -> Call -> Outcome)
    (name : string) (st st' : State) (r : Result unit) :
  registry_wf (pipeline_registry st) ->
  terminate_pipeline env name st = (r, st') ->
  registry_wf (pipeline_registry st').
Proof.
  intros Hwf Hterm. destruct r as [[]|e|].
  - destruct (dict_get name (pipeline_registry st)) as [spec|] eqn:Hget.
    + destruct (terminate_pipeline_ok env name st st' spec Hget Hterm)
        as (Hdel & _ & _).
      destruct Hwf as [Hnd Hall]. split; [by eapply dict_del_NoDup |].
      apply Forall_forall. intros x Hx. rewrite Forall_forall in Hall.
      apply Hall. by eapply dict_del_elem_of.
    + rewrite (terminate_pipeline_absent env name st Hget) in Hterm.
      discriminate Hterm.
  - by rewrite (terminate_pipeline_not_ok env name st st' _ Hterm).
  - by rewrite (terminate_pipeline_not_ok env name st st' _ Hterm).
Qed.

(** Single flight when the pipeline is started under its own name: the
    second [start_pipeline] raises the already-running exception and only
    one thread was started. *)
Lemma start_twice_own_name (name : string) (pipeline other : Pipeline.t)
    (st : State) :
  Pipeline.name pipeline = name ->
  dict_contains name (pipeline_registry st) = false ->
  exists st1 st2,
    start_pipeline name pipeline st = (Ok tt, st1) /\
    start_pipeline name other st1 = (Err (AlreadyRunning name), st2) /\
    started_threads (trace st2) =
      started_threads (trace st) ++ [{| tid := next_tid st; args := pipeline |}] /\
    pipeline_registry st2 = pipeline_registry st1.
Proof.
  intros Hname Habsent.
  rewrite start_pipeline_eq, Habsent. cbn zeta.
  eexists _, _. split; [reflexivity |].
  rewrite start_pipeline_eq. cbn zeta. cbn [pipeline_registry].
  assert (Hin : dict_contains name
                  (dict_set (Pipeline.name pipeline)
                     (PipelineSpec.mk name pipeline
                        {| tid := next_tid st; args := pipeline |})
                     (pipeline_registry st)) = true).
  { apply dict_contains_true. rewrite Hname, dict_get_set_eq. by eexists. }
  rewrite Hin. split; [reflexivity |]. cbn.
  rewrite !started_threads_app. simpl. by rewrite !app_nil_r.
Qed.

(** A [join()] that never returns: [terminate_pipeline] does not return
    either, and the record stays. *)
Lemma terminate_join_blocks (env : list Effect -> Call -> Outcome)
    (name : string) (st : State) (spec : PipelineSpec.t) :
  dict_get name (pipeline_registry st) = Some spec ->
  env (at_stop name st) (CStop (PipelineSpec.pipeline spec)) = Returned ->
  env (at_join name spec st) (CJoin (PipelineSpec.thread spec) None) = Blocked ->
  exists st',
    terminate_pipeline env name st = (Hang, st') /\
    pipeline_registry st' = pipeline_registry st.
Proof.
  intros Hget Hstop Hjoin.
  rewrite (terminate_pipeline_present env name st spec Hget). cbn zeta.
  rewrite Hstop, Hjoin. by eexists.
Qed.

(** The worker body never writes to the registry, however it ends. *)
Lemma run_pipeline_registry (env : list Effect -> Call -> Outcome)
    (pipeline : Pipeline.t) (st st' : State) (r : Result unit) :
  run_pipeline env pipeline st = (r, st') ->
  pipeline_registry st' = pipeline_registry st.
Proof.
  unfold run_pipeline, bind, try_except, call, logger. cbn.
  destruct (env (trace st) (CRun pipeline)); cbn.
  - by intros [= <- <-].
  - destruct (env _ (CStop pipeline)); cbn; by intros [= <- <-].
  - by intros [= <- <-].
Qed.

(** A pipeline whose worker has ended, crashed or not, still blocks a new
    start under its name until it is terminated. *)
Lemma ended_worker_blocks_start (env : list Effect -> Call -> Outcome)
    (name : string) (pipeline other : Pipeline.t) (st st' : State)
    (r : Result unit) (spec : PipelineSpec.t) :
  dict_get name (pipeline_registry st) = Some spec ->
  run_pipeline env pipeline st = (r, st') ->
  exists st'',
    start_pipeline name other st' = (Err (AlreadyRunning name), st'').
Proof.
  intros Hget Hrun. rewrite start_pipeline_eq. cbn zeta.
  rewrite (run_pipeline_registry env pipeline st st' r Hrun).
  unfold dict_contains. rewrite Hget. by eexists.
Qed.

(** C1, on the code. Started under the name ["p"], a pipeline whose [name]
    attribute is ["q"] is recorded under ["q"]: the second
    [start_pipeline "p"] finds no key ["p"], succeeds and starts a second
    thread; the record of the first thread is overwritten. *)
Theorem start_twice_diverging_name :
  exists st1 st2,
    start_pipeline "p" pipeline_q initial_state = (Ok tt, st1) /\
    start_pipeline "p" pipeline_q st1 = (Ok tt, st2) /\
    started_threads (trace st2) =
      [{| tid := 0; args := pipeline_q |}; {| tid := 1; args := pipeline_q |}] /\
    dict_contains "p" (pipeline_registry st2) = false /\
    pipeline_registry st2 =
      [("q", PipelineSpec.mk "p" pipeline_q {| tid := 1; args := pipeline_q |})].
Proof.
  set (st1 := snd (start_pipeline "p" pipeline_q initial_state)).
  exists st1, (snd (start_pipeline "p" pipeline_q st1)).
  vm_compute. done.
Qed.


(** ** The event classes *)

Lemma construct_ref_allocates : construct_allocates construct_ref.
Proof.
  intros cls d h o h' Hwf [= <- <-]. cbn. split.
  - destruct (dicts h !! next_loc h) as [d0|] eqn:Hd; [|done].
    assert (Hlt : next_loc h < next_loc h) by (apply Hwf; by eexists). lia.
  - intros l Hl. by rewrite lookup_insert_ne.
Qed.

Lemma restore_defaults_ref_local (defaults : string -> Dict Value) :
  restore_defaults_local (restore_defaults_ref defaults).
Proof. intros self h l Hl. cbn. by rewrite lookup_alter_ne. Qed.

Section FromClassFacts.
Variable construct : string -> Dict Value -> Heap -> Obj * Heap.
Variable _restore_defaults : Obj -> Heap -> Heap.

(** C9. [from_class] of both event classes adopts the record it is given:
    the wrapper it returns refers to the very field store of the record,
    which is neither copied nor changed, so the wrapper reads the record's
    fields, and a field written through either of the two is read through
    the other. *)
Theorem from_class_shares_store
    (fc : string -> Obj -> Heap -> Obj * Heap)
    (cls : string) (clazz : Obj) (h : Heap) :
  construct_allocates construct ->
  restore_defaults_local _restore_defaults ->
  fc = MetadataChangeLogEvent.from_class construct _restore_defaults \/
  fc = EntityChangeEvent.from_class construct _restore_defaults ->
  heap_wf h -> live clazz h ->
  exists instance h',
    fc cls clazz h = (instance, h') /\
    _inner_dict instance = _inner_dict clazz /\
    dicts h' !! _inner_dict clazz = dicts h !! _inner_dict clazz /\
    (forall k, obj_getitem instance k h' = obj_getitem clazz k h) /\
    (forall k v, obj_getitem clazz k (obj_setitem instance k v h') = Some v) /\
    (forall k v, obj_getitem instance k (obj_setitem clazz k v h') = Some v) /\
    (forall k v k',
        obj_getitem clazz k' (obj_setitem instance k v h') =
        obj_getitem instance k' (obj_setitem instance k v h')) /\
    (forall k v k',
        obj_getitem instance k' (obj_setitem clazz k v h') =
        obj_getitem clazz k' (obj_setitem clazz k v h')).
Proof.
  intros Hconstruct Hrestore Hfc Hwf [d Hd].
  assert (Heq : fc cls clazz h = from_class construct _restore_defaults cls clazz h)
    by (by destruct Hfc as [-> | ->]).
  rewrite Heq. unfold from_class.
  destruct (construct cls [] h) as [o h1] eqn:Hc.
  destruct (Hconstruct cls [] h o h1 Hwf Hc) as [Hfresh Hframe].
  assert (Hne : _inner_dict clazz <> _inner_dict o).
  { intros Hl. rewrite <- Hl, Hd in Hfresh. discriminate Hfresh. }
  assert (Hsame : dicts (_restore_defaults o h1) !! _inner_dict clazz = Some d).
  { by rewrite (Hrestore o h1 _ Hne), (Hframe _ Hne). }
  eexists _, _. split; [reflexivity |]. cbn.
  split; [done |]. split; [by rewrite Hsame, Hd |].
  split; [|split; [|split; [|split]]].
  - intros k. unfold obj_getitem. cbn. by rewrite Hsame, Hd.
  - intros k v. unfold obj_getitem, obj_setitem. cbn.
    rewrite lookup_alter_eq, Hsame. cbn. apply dict_get_set_eq.
  - intros k v. unfold obj_getitem, obj_setitem. cbn.
    rewrite lookup_alter_eq, Hsame. cbn. apply dict_get_set_eq.
  - done.
  - done.
Qed.
End FromClassFacts.

Section EntityChangeEventFacts.
Variable to_obj : Dict Value -> bool -> Result (Dict Value).
Variable from_obj : Value -> bool -> Result (Dict Value).
Variable dumps : Value -> Result string.
Variable loads : string -> Result Value.

(** C7. [EntityChangeEvent.as_json] runs the strict serializer [to_obj]
    first and hands [json.dumps] its result with the key ["parameters"] set
    to the value the event's field store holds under that key, or to an
    empty dictionary when the store has no such key; every other key keeps
    the value and the place the strict serializer gave it. When the strict
    serializer raises, so does [as_json]. *)
Theorem as_json_parameters (self : Dict Value) :
  match to_obj self false with
  | Ok strict =>
      exists json_obj,
        EntityChangeEvent.as_json to_obj dumps self = dumps (VDict json_obj) /\
        dict_get "parameters" json_obj =
          Some (match dict_get "parameters" self with
                | Some v => v
                | None => VDict []
                end) /\
        (forall k, k <> "parameters" -> dict_get k json_obj = dict_get k strict) /\
        dict_keys json_obj =
          (if dict_contains "parameters" strict then dict_keys strict
           else dict_keys strict ++ ["parameters"])
  | Err e => EntityChangeEvent.as_json to_obj dumps self = Err e
  | Hang => EntityChangeEvent.as_json to_obj dumps self = Hang
  end.
Proof.
  unfold EntityChangeEvent.as_json, EntityChangeEvent.as_json_obj.
  destruct (to_obj self false) as [strict|e|]; cbn; [|done|done].
  eexists. split; [reflexivity |]. split; [|split].
  - rewrite dict_get_set_eq. unfold EntityChangeEvent.live_parameters, dict_contains.
    by destruct (dict_get "parameters" self).
  - intros k Hk. by apply dict_get_set_ne.
  - destruct (dict_contains "parameters" strict) eqn:Hc.
    + apply dict_keys_set_present. by apply dict_contains_true.
    + apply dict_keys_set_absent. by apply dict_contains_false.
Qed.

(** C8, on the code. [as_json] puts the nested dictionary an event holds
    under ["parameters"] into the document, but [from_json] hands the
    decoded document to the strict parser [from_obj] and does nothing for
    ["parameters"]. With a parser that only builds what the schema declares,
    parsing the text [as_json] produced does not give the event back: no
    result of [from_json] holds the nested dictionary. *)
Theorem from_json_as_json_loses_parameters
    (self strict : Dict Value) (nested : list (string * Value)) :
  (forall v tuples d, from_obj v tuples = Ok d -> parameters_schema_typed d = true) ->
  dict_get "parameters" self = Some (VDict nested) ->
  to_obj self false = Ok strict ->
  (exists json_obj,
      EntityChangeEvent.as_json to_obj dumps self = dumps (VDict json_obj) /\
      dict_get "parameters" json_obj = Some (VDict nested)) /\
  forall json_str,
    EntityChangeEvent.as_json to_obj dumps self = Ok json_str ->
    EntityChangeEvent.from_json from_obj loads json_str <> Ok self /\
    forall d,
      EntityChangeEvent.from_json from_obj loads json_str = Ok d ->
      dict_get "parameters" d <> Some (VDict nested).
Proof.
  intros Htyped Hparams Hto. split.
  - unfold EntityChangeEvent.as_json, EntityChangeEvent.as_json_obj.
    rewrite Hto. cbn. eexists. split; [reflexivity |].
    rewrite dict_get_set_eq.
    unfold EntityChangeEvent.live_parameters, dict_contains. by rewrite Hparams.
  - intros json_str _.
    assert (Hno : forall d,
      EntityChangeEvent.from_json from_obj loads json_str = Ok d ->
      dict_get "parameters" d <> Some (VDict nested)).
    { intros d Hparse Hd. unfold EntityChangeEvent.from_json in Hparse.
      destruct (loads json_str) as [json_obj|e|]; cbn in Hparse;
        try discriminate.
      apply Htyped in Hparse. unfold parameters_schema_typed in Hparse.
      by rewrite Hd in Hparse. }
    split; [|exact Hno]. intros Hparse. by apply (Hno self Hparse).
Qed.
End EntityChangeEventFacts.

Section MetadataChangeLogEventFacts.
Variable to_obj : Dict Value -> bool -> Result (Dict Value).
Variable from_obj : Value -> bool -> Result (Dict Value).
Variable dumps : Value -> Result string.
Variable loads : string -> Result Value.

(** The change-log event goes through [to_obj], [json.dumps], [json.loads]
    and [from_obj] and nothing else: it comes back whenever those four
    undo each other on it. *)
Lemma change_log_round_trip (self json_obj : Dict Value) (json_str : string) :
  to_obj self false = Ok json_obj ->
  dumps (VDict json_obj) = Ok json_str ->
  loads json_str = Ok (VDict json_obj) ->
  from_obj (VDict json_obj) true = Ok self ->
  rbind (MetadataChangeLogEvent.as_json to_obj dumps self)
        (MetadataChangeLogEvent.from_json from_obj loads) = Ok self.
Proof.
  intros Hto Hdumps Hloads Hfrom.
  unfold MetadataChangeLogEvent.as_json, MetadataChangeLogEvent.from_json.
  rewrite Hto. cbn. rewrite Hdumps. cbn. rewrite Hloads. cbn. exact Hfrom.
Qed.
End MetadataChangeLogEventFacts.


(** ** The properties on sample runs *)

Lemma strict_read_required_keys (fields : list string) (o d : Dict Value) :
  read_required fields o = Ok d -> dict_keys d = fields.
Proof.
  revert d. induction fields as [|f fields IH]; intros d; simpl.
  - by intros [= <-].
  - destruct (dict_get f o) as [[]|]; try discriminate.
    destruct (read_required fields o) as [d'|e|]; cbn; try discriminate.
    intros [= <-]. simpl. f_equal. by apply IH.
Qed.

Lemma dict_get_app_absent {V} (k : string) (d d' : Dict V) :
  k ∉ dict_keys d -> dict_get k (d ++ d') = dict_get k d'.
Proof.
  induction d as [|[k0 v0] d IH]; simpl; [done |].
  intros Hk. apply not_elem_of_cons in Hk as [Hne Hk].
  destruct (String.eqb_spec k k0); [done | by apply IH].
Qed.

(** The reference parser only builds what the schema declares. *)
Lemma strict_from_obj_typed (v : Value) (tuples : bool) (d : Dict Value) :
  strict_from_obj v tuples = Ok d -> parameters_schema_typed d = true.
Proof.
  destruct v as [| | | | |o|]; try discriminate. unfold strict_from_obj.
  destruct (read_required required_fields o) as [d0|e|] eqn:Hreq; cbn;
    try discriminate.
  intros [= <-]. unfold parameters_schema_typed.
  rewrite dict_get_app_absent.
  - simpl. by destruct (dict_get "parameters" o) as [[]|].
  - rewrite (strict_read_required_keys _ _ _ Hreq).
    apply (bool_decide_unpack _). vm_compute. exact I.
Qed.

Lemma st_abc_wf : registry_wf (pipeline_registry st_abc).
Proof.
  split.
  - apply (bool_decide_unpack _). vm_compute. exact I.
  - vm_compute. repeat constructor.
Defined.

Lemma sample_heap_wf : heap_wf sample_heap.
Proof.
  intros l [d Hd]. unfold sample_heap in *. cbn in *.
  destruct (decide (l = 0)) as [->|Hne]; [lia |].
  by rewrite lookup_singleton_ne in Hd.
Defined.

(** C3 on the state after starting ["a"], with collaborators that return. *)
Lemma terminate_pipeline_spec_witness :
  NoDup (dict_keys (pipeline_registry st_a)) /\
  exists st' eff,
    terminate_pipeline always_returns "a" st_a = (Ok tt, st') /\
    trace st' = trace st_a ++ eff /\
    calls_of eff = terminate_calls "a" spec_a /\
    dict_get "a" (pipeline_registry st') = None.
Proof.
  assert (Hnd : NoDup (dict_keys (pipeline_registry st_a))).
  { apply (bool_decide_unpack _). vm_compute. exact I. }
  split; [exact Hnd |].
  destruct (terminate_pipeline_spec always_returns "a" st_a Hnd)
    as (r & st' & eff & Hrun & Htr & Hcase).
  change (dict_get "a" (pipeline_registry st_a)) with (Some spec_a) in Hcase.
  cbn zeta in Hcase. destruct Hcase as (_ & Hok & Hreturns).
  assert (Hr : r = Ok tt) by (by apply Hreturns).
  subst r. destruct (Hok eq_refl) as (Hcalls & _ & Hgone & _).
  by exists st', eff.
Defined.

(** C4 on the state after starting ["a"], with a [stop()] that raises. *)
Lemma terminate_stop_or_join_raises_witness :
  dict_get "a" (pipeline_registry st_a) = Some spec_a /\
  stop_raises (at_stop "a" st_a) (CStop pipeline_a) = Raised boom /\
  exists st' eff,
    terminate_pipeline stop_raises "a" st_a = (Err (TerminationFailed "a"), st') /\
    pipeline_registry st' = pipeline_registry st_a /\
    dict_get "a" (pipeline_registry st') = Some spec_a /\
    trace st' = trace st_a ++ eff /\
    calls_of eff `prefix_of`
      [CStop pipeline_a; CJoin {| tid := 0; args := pipeline_a |} None] /\
    last eff = Some (terminate_error_log "a" boom).
Proof.
  split; [reflexivity |]. split; [reflexivity |].
  apply (terminate_stop_or_join_raises stop_raises "a" st_a spec_a boom);
    [reflexivity | left; reflexivity].
Defined.

(** C10 on the state after starting ["a"], with a [stats()] that raises. *)
Lemma terminate_stats_raises_witness :
  dict_get "a" (pipeline_registry st_a) = Some spec_a /\
  stats_raises (at_stats "a" spec_a st_a) (CStats pipeline_a) = Raised boom /\
  exists st' eff,
    terminate_pipeline stats_raises "a" st_a = (Err (TerminationFailed "a"), st') /\
    pipeline_registry st' = pipeline_registry st_a /\
    dict_get "a" (pipeline_registry st') = Some spec_a /\
    trace st' = trace st_a ++ eff /\
    [CStop pipeline_a; CJoin {| tid := 0; args := pipeline_a |} None;
     CStats pipeline_a] `prefix_of` calls_of eff /\
    last eff = Some (terminate_error_log "a" boom).
Proof.
  split; [reflexivity |]. split; [reflexivity |].
  apply (terminate_stats_raises stats_raises "a" st_a spec_a boom);
    [reflexivity | reflexivity | reflexivity | left; reflexivity].
Defined.

(** C5 on the state after starting ["a"], ["b"] and ["c"]: [terminate_all]
    succeeds, empties the registry and stops each of the three once. *)
Lemma terminate_all_spec_witness :
  registry_wf (pipeline_registry st_abc) /\
  exists st',
    terminate_all always_returns st_abc = (Ok tt, st') /\
    pipeline_registry st' = [] /\
    stop_count pipeline_a (trace st') = 1 /\
    stop_count pipeline_b (trace st') = 1 /\
    stop_count pipeline_c (trace st') = 1.
Proof.
  split; [exact st_abc_wf |].
  destruct (terminate_all_spec always_returns st_abc st_abc_wf)
    as (_ & Hok & Htotal).
  destruct (Htotal (fun _ _ => eq_refl)) as [st' Hrun].
  destruct (Hok st' Hrun) as [Hempty Hcount].
  exists st'. split; [exact Hrun |]. split; [exact Hempty |].
  split; [|split].
  - exact (Hcount "a" _ eq_refl).
  - exact (Hcount "b" _ eq_refl).
  - exact (Hcount "c" _ eq_refl).
Defined.

(** C6 on the state after starting ["a"], with a [run()] that raises an
    exception whose traceback has five entries: three are logged. *)
Lemma run_pipeline_crash_witness :
  run_raises (trace st_a) (CRun pipeline_a) = Raised boom /\
  exists st' rest,
    run_pipeline run_raises pipeline_a st_a = (Ok tt, st') /\
    trace st' =
      trace st_a ++
      [ECall (CRun pipeline_a); crash_log pipeline_a boom; ECall (CStop pipeline_a)] ++
      rest /\
    format_exc_entries 3 boom = ["run"; "process"; "transform"] /\
    dict_get "a" (pipeline_registry st') = Some spec_a.
Proof.
  split; [reflexivity |].
  destruct (run_pipeline_crash run_raises pipeline_a st_a boom eq_refl)
    as (r & st' & rest & Hrun & Htr & _ & _ & _ & _ & _ & Hget & Hr).
  cbn in Hr. subst r. exists st', rest.
  split; [exact Hrun |]. split; [exact Htr |]. split; [reflexivity |].
  by rewrite Hget.
Defined.

(** C9 on the sample record, with the reference library methods: a field
    written through the wrapper is read through the record. *)
Lemma from_class_shares_store_witness :
  heap_wf sample_heap /\ live sample_record sample_heap /\
  exists instance h',
    EntityChangeEvent.from_class construct_ref (restore_defaults_ref sample_defaults)
      "EntityChangeEvent" sample_record sample_heap = (instance, h') /\
    _inner_dict instance = _inner_dict sample_record /\
    obj_getitem instance "entityType" h' = Some (VStr "dataset") /\
    obj_getitem sample_record "version"
      (obj_setitem instance "version" (VInt 1) h') = Some (VInt 1).
Proof.
  assert (Hlive : live sample_record sample_heap) by (by eexists).
  split; [exact sample_heap_wf |]. split; [exact Hlive |].
  destruct (from_class_shares_store construct_ref
              (restore_defaults_ref sample_defaults)
              (EntityChangeEvent.from_class construct_ref
                 (restore_defaults_ref sample_defaults))
              "EntityChangeEvent" sample_record sample_heap
              construct_ref_allocates
              (restore_defaults_ref_local sample_defaults)
              (or_intror eq_refl) sample_heap_wf Hlive)
    as (instance & h' & Hfc & Hptr & _ & Hread & Hwrite & _).
  exists instance, h'. split; [exact Hfc |]. split; [exact Hptr |].
  split; [by rewrite Hread | apply Hwrite].
Defined.

(** C8 on the sample event, with the reference collaborators: the nested
    dictionary is written to the text and is gone after parsing it. *)
Lemma from_json_as_json_loses_parameters_witness :
  dict_get "parameters" sample_event = Some (VDict sample_nested) /\
  strict_to_obj sample_event false = Ok sample_strict /\
  EntityChangeEvent.as_json strict_to_obj json_dumps sample_event = Ok sample_json /\
  EntityChangeEvent.from_json strict_from_obj json_loads sample_json = Ok sample_parsed /\
  EntityChangeEvent.from_json strict_from_obj json_loads sample_json <> Ok sample_event.
Proof.
  split; [reflexivity |]. split; [reflexivity |].
  split; [vm_compute; reflexivity |]. split; [vm_compute; reflexivity |].
  apply (from_json_as_json_loses_parameters
           strict_to_obj strict_from_obj json_dumps json_loads
           sample_event sample_strict sample_nested
           strict_from_obj_typed eq_refl eq_refl).
  vm_compute. reflexivity.
Defined.


(* ===================================================================== *)
(** * Part III: further properties of the code                            *)
(* ===================================================================== *)

(** ** Runs of the manager *)

Lemma dict_del_set_absent {V} (k : string) (v : V) (d : Dict V) :
  dict_get k d = None -> dict_del k (dict_set k v d) = Some d.
Proof.
  induction d as [|[k0 v0] d IH]; simpl.
  - by rewrite String.eqb_refl.
  - destruct (String.eqb_spec k k0) as [->|Hne]; [done |].
    intros Hget. simpl. destruct (String.eqb_spec k k0); [done |].
    by rewrite IH.
Qed.

(** What [terminate_pipeline] never touches. *)
Lemma terminate_pipeline_frame (env : list Effect -> Call -> Outcome)
    (name : string) (st st' : State) (r : Result unit) :
  terminate_pipeline env name st = (r, st') ->
  next_tid st' = next_tid st /\
  started_threads (trace st') = started_threads (trace st) /\
  forall x, x ∈ pipeline_registry st' -> x ∈ pipeline_registry st.
Proof.
  intros Hterm.
  destruct (dict_get name (pipeline_registry st)) as [spec|] eqn:Hget.
  - rewrite (terminate_pipeline_present env name st spec Hget) in Hterm.
    cbn zeta in Hterm.
    unfold terminate_failed, terminate_hung, at_print, at_stats, at_join, at_stop
      in Hterm.
    repeat match type of Hterm with
           | context [match env ?tr ?c with _ => _ end] => destruct (env tr c)
           end;
      try (injection Hterm as <- <-; cbn;
           rewrite ?started_threads_app; simpl; rewrite ?app_nil_r; done).
    destruct (dict_del name (pipeline_registry st)) as [d|] eqn:Hdel;
      injection Hterm as <- <-; cbn;
      rewrite ?started_threads_app; simpl; rewrite ?app_nil_r;
      (split; [done |]; split; [done |]); [|done].
    intros x Hx. by eapply dict_del_elem_of.
  - rewrite (terminate_pipeline_absent env name st Hget) in Hterm.
    injection Hterm as <- <-. cbn.
    rewrite started_threads_app. simpl. by rewrite app_nil_r.
Qed.

Lemma for_each_terminate_frame (env : list Effect -> Call -> Outcome)
    (names : list string) :
  forall st st' r,
    for_each names (terminate_pipeline env) st = (r, st') ->
    next_tid st' = next_tid st /\
    started_threads (trace st') = started_threads (trace st) /\
    forall x, x ∈ pipeline_registry st' -> x ∈ pipeline_registry st.
Proof.
  induction names as [|n names IH]; intros st st' r Hrun; simpl in Hrun.
  - by injection Hrun as <- <-.
  - unfold bind in Hrun.
    destruct (terminate_pipeline env n st) as [r1 st1] eqn:Hterm.
    destruct (terminate_pipeline_frame env n st st1 r1 Hterm) as (Ht & Hs & Hin).
    destruct r1 as [[]|e|]; try (by injection Hrun as <- <-).
    destruct (IH st1 st' r Hrun) as (Ht' & Hs' & Hin').
    split; [congruence |]. split; [congruence |]. auto.
Qed.

Lemma for_each_terminate_wf (env : list Effect -> Call -> Outcome)
    (names : list string) :
  forall st st' r,
    registry_wf (pipeline_registry st) ->
    for_each names (terminate_pipeline env) st = (r, st') ->
    registry_wf (pipeline_registry st').
Proof.
  induction names as [|n names IH]; intros st st' r Hwf Hrun; simpl in Hrun.
  - by injection Hrun as <- <-.
  - unfold bind in Hrun.
    destruct (terminate_pipeline env n st) as [r1 st1] eqn:Hterm.
    pose proof (terminate_pipeline_wf env n st st1 r1 Hwf Hterm) as Hwf1.
    destruct r1 as [[]|e|]; try (by injection Hrun as <- <-).
    by eapply IH.
Qed.

Lemma terminate_all_frame (env : list Effect -> Call -> Outcome)
    (st st' : State) (r : Result unit) :
  terminate_all env st = (r, st') ->
  next_tid st' = next_tid st /\
  started_threads (trace st') = started_threads (trace st) /\
  (forall x, x ∈ pipeline_registry st' -> x ∈ pipeline_registry st) /\
  (registry_wf (pipeline_registry st) -> registry_wf (pipeline_registry st')).
Proof.
  rewrite terminate_all_unfold.
  destruct (for_each _ _ _) as [r1 st1] eqn:Hrun.
  destruct (for_each_terminate_frame env _ _ _ _ Hrun) as (Ht & Hs & Hin).
  pose proof (fun H => for_each_terminate_wf env _ _ _ _ H Hrun) as Hwf.
  cbn in Ht, Hs, Hin, Hwf.
  rewrite started_threads_app in Hs. simpl in Hs. rewrite app_nil_r in Hs.
  destruct r1 as [[]|e|]; intros [= <- <-]; cbn;
    rewrite ?started_threads_app; simpl; rewrite ?app_nil_r; auto.
Qed.

Lemma run_pipeline_frame (env : list Effect -> Call -> Outcome)
    (pipeline : Pipeline.t) (st st' : State) (r : Result unit) :
  run_pipeline env pipeline st = (r, st') ->
  next_tid st' = next_tid st /\
  started_threads (trace st') = started_threads (trace st) /\
  pipeline_registry st' = pipeline_registry st.
Proof.
  unfold run_pipeline, bind, try_except, call, logger. cbn.
  destruct (env (trace st) (CRun pipeline)); cbn;
    [| destruct (env _ (CStop pipeline)); cbn |];
    intros [= <- <-]; cbn;
    rewrite ?started_threads_app; simpl; rewrite ?app_nil_r; done.
Qed.

Lemma run_op_registry_wf (env : list Effect -> Call -> Outcome) (op : Op)
    (st : State) :
  registry_wf (pipeline_registry st) ->
  registry_wf (pipeline_registry (snd (run_op env op st))).
Proof.
  intros Hwf. destruct op as [name pipeline|name| |t]; simpl.
  - destruct (start_pipeline name pipeline st) as [r st'] eqn:Hrun.
    by eapply start_pipeline_wf.
  - destruct (terminate_pipeline env name st) as [r st'] eqn:Hrun.
    by eapply terminate_pipeline_wf.
  - destruct (terminate_all env st) as [r st'] eqn:Hrun.
    by apply (terminate_all_frame env st st' r Hrun).
  - unfold thread_body.
    destruct (run_pipeline env (args t) st) as [r st'] eqn:Hrun.
    destruct (run_pipeline_frame env _ _ _ _ Hrun) as (_ & _ & Hreg).
    simpl. by rewrite Hreg.
Qed.

(** In every state a run reaches from the empty one, the registry holds
    each key once and each record under the [name] attribute of its own
    pipeline. *)
Theorem run_ops_registry_wf (env : list Effect -> Call -> Outcome)
    (ops : list Op) :
  registry_wf (pipeline_registry (run_ops env ops initial_state)).
Proof.
  assert (Hgen : forall st, registry_wf (pipeline_registry st) ->
                            registry_wf (pipeline_registry (run_ops env ops st))).
  { induction ops as [|op ops IH]; intros st Hwf; simpl; [done |].
    apply IH. by apply run_op_registry_wf. }
  apply Hgen. split; [apply NoDup_nil_2 | apply Forall_nil_2].
Qed.

Lemma threads_wf_frame (st st' : State) :
  next_tid st' = next_tid st ->
  started_threads (trace st') = started_threads (trace st) ->
  (forall x, x ∈ pipeline_registry st' -> x ∈ pipeline_registry st) ->
  threads_wf st -> threads_wf st'.
Proof.
  intros Ht Hs Hin (Hnd & Hlt & Hrec). unfold threads_wf.
  rewrite Hs, Ht. split; [done |]. split; [done |].
  apply Forall_forall. intros x Hx. rewrite Forall_forall in Hrec.
  apply Hrec. by apply Hin.
Qed.

Lemma start_pipeline_threads_wf (name : string) (pipeline : Pipeline.t)
    (st st' : State) (r : Result unit) :
  threads_wf st ->
  start_pipeline name pipeline st = (r, st') ->
  threads_wf st'.
Proof.
  intros (Hnd & Hlt & Hrec) Hstart.
  rewrite start_pipeline_eq in Hstart. cbn zeta in Hstart.
  destruct (dict_contains name (pipeline_registry st));
    injection Hstart as <- <-; unfold threads_wf; cbn;
    rewrite ?started_threads_app; simpl; rewrite ?app_nil_r.
  - done.
  - split; [|split].
    + rewrite map_app. simpl. apply NoDup_app. split; [done |].
      split; [|apply NoDup_singleton].
      intros i Hi Hi'. apply list_elem_of_singleton in Hi' as ->.
      apply list_elem_of_fmap in Hi as (t & Heq & Ht).
      rewrite Forall_forall in Hlt. specialize (Hlt t Ht). lia.
    + apply Forall_app. split.
      * eapply Forall_impl; [exact Hlt |]. simpl. intros t Ht. lia.
      * apply Forall_singleton. simpl. lia.
    + apply Forall_forall. intros x Hx.
      apply dict_set_elem_of in Hx as [->|Hx]; simpl.
      * split; [|done]. apply elem_of_app. right. by apply list_elem_of_singleton.
      * rewrite Forall_forall in Hrec. destruct (Hrec x Hx) as [Hin Hargs].
        split; [|done]. apply elem_of_app. by left.
Qed.

Lemma run_op_threads_wf (env : list Effect -> Call -> Outcome) (op : Op)
    (st : State) :
  threads_wf st -> threads_wf (snd (run_op env op st)).
Proof.
  intros Hwf. destruct op as [name pipeline|name| |t]; simpl.
  - destruct (start_pipeline name pipeline st) as [r st'] eqn:Hrun.
    by eapply start_pipeline_threads_wf.
  - destruct (terminate_pipeline env name st) as [r st'] eqn:Hrun.
    destruct (terminate_pipeline_frame env name st st' r Hrun) as (Ht & Hs & Hin).
    by eapply threads_wf_frame.
  - destruct (terminate_all env st) as [r st'] eqn:Hrun.
    destruct (terminate_all_frame env st st' r Hrun) as (Ht & Hs & Hin & _).
    by eapply threads_wf_frame.
  - unfold thread_body.
    destruct (run_pipeline env (args t) st) as [r st'] eqn:Hrun.
    destruct (run_pipeline_frame env _ _ _ _ Hrun) as (Ht & Hs & Hreg).
    eapply threads_wf_frame; [exact Ht | exact Hs | | exact Hwf].
    simpl. by rewrite Hreg.
Qed.

(** In every state a run reaches from the empty one, the threads started
    are pairwise distinct, and every record holds a thread that was started
    and whose argument is the pipeline of that record: [terminate_pipeline]
    only ever joins a started worker of the pipeline it stops. *)
Theorem run_ops_threads_wf (env : list Effect -> Call -> Outcome)
    (ops : list Op) :
  threads_wf (run_ops env ops initial_state).
Proof.
  assert (Hgen : forall st, threads_wf st -> threads_wf (run_ops env ops st)).
  { induction ops as [|op ops IH]; intros st Hwf; simpl; [done |].
    apply IH. by apply run_op_threads_wf. }
  apply Hgen. unfold threads_wf. cbn.
  split; [apply NoDup_nil_2 |]. split; apply Forall_nil_2.
Qed.

(** Started under its own name on a free slot and terminated with
    collaborators that return, a pipeline leaves the registry exactly as it
    was, and can be started again under that name. *)
Theorem start_then_terminate_restores (env : list Effect -> Call -> Outcome)
    (name : string) (pipeline : Pipeline.t) (st : State) :
  (forall h c, env h c = Returned) ->
  Pipeline.name pipeline = name ->
  dict_contains name (pipeline_registry st) = false ->
  exists st1 st2 st3,
    start_pipeline name pipeline st = (Ok tt, st1) /\
    terminate_pipeline env name st1 = (Ok tt, st2) /\
    pipeline_registry st2 = pipeline_registry st /\
    start_pipeline name pipeline st2 = (Ok tt, st3).
Proof.
  intros Henv Hname Habsent.
  rewrite start_pipeline_eq, Habsent. cbn zeta.
  eexists _, _, _. split; [reflexivity |].
  set (spec := PipelineSpec.mk name pipeline {| tid := next_tid st; args := pipeline |}).
  match goal with |- terminate_pipeline _ _ ?s = _ /\ _ => set (st1 := s) end.
  assert (Hget : dict_get name (pipeline_registry st1) = Some spec).
  { unfold st1. cbn. rewrite Hname. apply dict_get_set_eq. }
  rewrite (terminate_pipeline_present env name st1 spec Hget). cbn zeta.
  rewrite !Henv.
  assert (Hdel : dict_del name (pipeline_registry st1) = Some (pipeline_registry st)).
  { unfold st1. cbn. rewrite Hname. apply dict_del_set_absent.
    by apply dict_contains_false. }
  rewrite Hdel. split; [reflexivity |]. split; [reflexivity |].
  rewrite start_pipeline_eq. cbn zeta. cbn [pipeline_registry].
  by rewrite Habsent.
Qed.



(** After a [terminate_all] that succeeded, a second one succeeds too and
    calls no collaborator: nothing is stopped or joined twice. *)
Theorem terminate_all_twice (env : list Effect -> Call -> Outcome)
    (st st1 : State) :
  terminate_all env st = (Ok tt, st1) ->
  exists st2,
    terminate_all env st1 = (Ok tt, st2) /\
    calls_of (trace st2) = calls_of (trace st1) /\
    pipeline_registry st2 = [].
Proof.
  intros Hall. rewrite terminate_all_unfold in Hall.
  destruct (for_each _ _ _) as [[[]|e|] st0] eqn:Hrun; try discriminate Hall.
  injection Hall as <-.
  assert (Hempty : pipeline_registry st0 = []).
  { match type of Hrun with
    | for_each _ _ ?s = _ =>
        exact (proj1 (terminate_keys_ok env (pipeline_registry st) s st0 eq_refl Hrun))
    end. }
  rewrite terminate_all_unfold. cbn. rewrite Hempty. simpl.
  eexists. split; [reflexivity |]. cbn.
  rewrite !calls_of_app. simpl. by rewrite !app_nil_r.
Qed.

(** The worker body calls [run()], then [stop()] exactly when [run()]
    raised, and nothing else; it starts no thread and never writes to the
    registry. *)
Theorem run_pipeline_calls (env : list Effect -> Call -> Outcome)
    (pipeline : Pipeline.t) (st : State) :
  exists r st' eff,
    run_pipeline env pipeline st = (r, st') /\
    trace st' = trace st ++ eff /\
    pipeline_registry st' = pipeline_registry st /\
    started_threads eff = [] /\
    calls_of eff =
      match env (trace st) (CRun pipeline) with
      | Raised _ => [CRun pipeline; CStop pipeline]
      | _ => [CRun pipeline]
      end.
Proof.
  unfold run_pipeline, bind, try_except, call, logger. cbn.
  destruct (env (trace st) (CRun pipeline)); cbn;
    [| destruct (env _ (CStop pipeline)); cbn |];
    (eexists _, _, _; split; [reflexivity |]; cbn;
     split; [rewrite <- ?app_assoc; reflexivity |]; done).
Qed.

(** Started under a name that is not its own, a pipeline cannot be
    terminated under that name: [terminate_pipeline] raises the not-found
    exception and calls nothing, while the record sits under the
    pipeline's [name] attribute. *)
Theorem start_under_other_name (env : list Effect -> Call -> Outcome)
    (name : string) (pipeline : Pipeline.t) (st : State) :
  Pipeline.name pipeline <> name ->
  dict_contains name (pipeline_registry st) = false ->
  exists st1 st2,
    start_pipeline name pipeline st = (Ok tt, st1) /\
    dict_get (Pipeline.name pipeline) (pipeline_registry st1) =
      Some (PipelineSpec.mk name pipeline {| tid := next_tid st; args := pipeline |}) /\
    terminate_pipeline env name st1 = (Err (NotFound name), st2) /\
    calls_of (trace st2) = calls_of (trace st) /\
    pipeline_registry st2 = pipeline_registry st1.
Proof.
  intros Hne Habsent.
  rewrite start_pipeline_eq, Habsent. cbn zeta.
  eexists _, _. split; [reflexivity |]. cbn [pipeline_registry].
  split; [apply dict_get_set_eq |].
  rewrite terminate_pipeline_absent.
  - split; [reflexivity |]. cbn.
    rewrite !calls_of_app. simpl. by rewrite !app_nil_r.
  - cbn. rewrite dict_get_set_ne by done. by apply dict_contains_false.
Qed.

(** ** Sample runs for the properties above *)

Lemma start_twice_own_name_witness :
  Pipeline.name pipeline_a = "a" /\
  dict_contains "a" (pipeline_registry initial_state) = false /\
  exists st1 st2,
    start_pipeline "a" pipeline_a initial_state = (Ok tt, st1) /\
    start_pipeline "a" pipeline_b st1 = (Err (AlreadyRunning "a"), st2) /\
    started_threads (trace st2) = [{| tid := 0; args := pipeline_a |}].
Proof.
  split; [reflexivity |]. split; [reflexivity |].
  destruct (start_twice_own_name "a" pipeline_a pipeline_b initial_state
              eq_refl eq_refl) as (st1 & st2 & H1 & H2 & Hthr & _).
  by exists st1, st2.
Defined.

Lemma start_then_terminate_restores_witness :
  exists st1 st2 st3,
    start_pipeline "a" pipeline_a initial_state = (Ok tt, st1) /\
    terminate_pipeline always_returns "a" st1 = (Ok tt, st2) /\
    pipeline_registry st2 = [] /\
    start_pipeline "a" pipeline_a st2 = (Ok tt, st3).
Proof.
  apply (start_then_terminate_restores always_returns "a" pipeline_a initial_state);
    [intros h c; reflexivity | reflexivity | reflexivity].
Defined.


Lemma terminate_all_twice_witness :
  exists st1 st2,
    terminate_all always_returns st_abc = (Ok tt, st1) /\
    terminate_all always_returns st1 = (Ok tt, st2) /\
    calls_of (trace st2) = calls_of (trace st1) /\
    pipeline_registry st2 = [].
Proof.
  exists (snd (terminate_all always_returns st_abc)).
  assert (Hrun : terminate_all always_returns st_abc =
                 (Ok tt, snd (terminate_all always_returns st_abc)))
    by (vm_compute; reflexivity).
  destruct (terminate_all_twice always_returns st_abc _ Hrun) as (st2 & H2).
  by exists st2.
Defined.

Lemma start_under_other_name_witness :
  Pipeline.name pipeline_q <> "p" /\
  exists st1 st2,
    start_pipeline "p" pipeline_q initial_state = (Ok tt, st1) /\
    terminate_pipeline always_returns "p" st1 = (Err (NotFound "p"), st2) /\
    dict_contains "q" (pipeline_registry st2) = true.
Proof.
  assert (Hne : Pipeline.name pipeline_q <> "p") by discriminate.
  split; [exact Hne |].
  destruct (start_under_other_name always_returns "p" pipeline_q initial_state
              Hne eq_refl) as (st1 & st2 & H1 & Hget & H2 & _ & Hreg).
  exists st1, st2. split; [exact H1 |]. split; [exact H2 |].
  rewrite Hreg. apply dict_contains_true.
  change "q" with (Pipeline.name pipeline_q). rewrite Hget. by eexists.
Defined.

Lemma terminate_join_blocks_witness :
  dict_get "a" (pipeline_registry st_a) = Some spec_a /\
  exists st',
    terminate_pipeline join_blocks "a" st_a = (Hang, st') /\
    pipeline_registry st' = pipeline_registry st_a.
Proof.
  split; [reflexivity |].
  apply (terminate_join_blocks join_blocks "a" st_a spec_a);
    reflexivity.
Defined.

Lemma ended_worker_blocks_start_witness :
  exists st' st'',
    run_pipeline run_raises pipeline_a st_a = (Ok tt, st') /\
    start_pipeline "a" pipeline_b st' = (Err (AlreadyRunning "a"), st'').
Proof.
  exists (snd (run_pipeline run_raises pipeline_a st_a)).
  assert (Hrun : run_pipeline run_raises pipeline_a st_a =
                 (Ok tt, snd (run_pipeline run_raises pipeline_a st_a)))
    by (vm_compute; reflexivity).
  destruct (ended_worker_blocks_start run_raises "a" pipeline_a pipeline_b
              st_a _ _ spec_a eq_refl Hrun) as [st'' Hstart].
  by exists st''.
Defined.

(** ** Round trips of the event classes *)

Lemma dict_set_same {V} (k : string) (v : V) (d : Dict V) :
  dict_get k d = Some v -> dict_set k v d = d.
Proof.
  induction d as [|[k0 v0] d IH]; simpl; [done |].
  destruct (String.eqb_spec k k0) as [->|Hne].
  - by intros [= ->].
  - intros Hget. by rewrite IH.
Qed.

(** An entity-change event whose [parameters] the strict serializer
    already writes as the event holds them is serialized as the strict
    serializer alone would do it, and comes back from [from_json] whenever
    the library codecs undo each other on it. *)
Theorem entity_change_round_trip
    (to_obj : Dict Value -> bool -> Result (Dict Value))
    (from_obj : Value -> bool -> Result (Dict Value))
    (dumps : Value -> Result string) (loads : string -> Result Value)
    (self strict : Dict Value) (v : Value) (json_str : string) :
  to_obj self false = Ok strict ->
  dict_get "parameters" self = Some v ->
  dict_get "parameters" strict = Some v ->
  dumps (VDict strict) = Ok json_str ->
  loads json_str = Ok (VDict strict) ->
  from_obj (VDict strict) true = Ok self ->
  EntityChangeEvent.as_json to_obj dumps self = Ok json_str /\
  EntityChangeEvent.from_json from_obj loads json_str = Ok self.
Proof.
  intros Hto Hself Hstrict Hdumps Hloads Hfrom.
  unfold EntityChangeEvent.as_json, EntityChangeEvent.as_json_obj,
    EntityChangeEvent.from_json, EntityChangeEvent.live_parameters, dict_contains.
  rewrite Hto, Hself. cbn. rewrite (dict_set_same _ _ _ Hstrict), Hdumps.
  split; [done |]. by rewrite Hloads.
Qed.

Lemma entity_change_round_trip_witness :
  EntityChangeEvent.as_json strict_to_obj json_dumps sample_plain_event =
    Ok sample_plain_json /\
  EntityChangeEvent.from_json strict_from_obj json_loads sample_plain_json =
    Ok sample_plain_event.
Proof.
  apply (entity_change_round_trip strict_to_obj strict_from_obj json_dumps
           json_loads sample_plain_event sample_plain_event VNone
           sample_plain_json);
    vm_compute; reflexivity.
Defined.

Lemma change_log_round_trip_witness :
  rbind (MetadataChangeLogEvent.as_json strict_to_obj json_dumps sample_plain_event)
        (MetadataChangeLogEvent.from_json strict_from_obj json_loads) =
    Ok sample_plain_event.
Proof.
  apply (change_log_round_trip strict_to_obj strict_from_obj json_dumps
           json_loads sample_plain_event sample_plain_event sample_plain_json);
    vm_compute; reflexivity.
Defined.

(** ** The test helpers *)

Lemma test_event_init_eq (field : Value) (h : Heap) :
  TestEvent.__init__ field h =
    ({| obj_class := "TestEvent"; _inner_dict := next_loc h |},
     {| dicts := <[next_loc h := [("field", field)]]> (dicts h);
        next_loc := S (next_loc h) |}).
Proof.
  unfold TestEvent.__init__, new_dict, obj_setitem. cbn. f_equal. f_equal.
  apply map_eq. intros l. destruct (decide (l = next_loc h)) as [->|Hne].
  - by rewrite lookup_alter_eq, !lookup_insert_eq.
  - by rewrite lookup_alter_ne, !lookup_insert_ne.
Qed.

(** A [TestEvent] written with [as_json] and read back with [from_json]
    gives a new event with the same field, in a field store of its own,
    whenever [json.loads] undoes [json.dumps] on its one-field dictionary. *)
Theorem test_event_round_trip
    (dumps : Value -> Result string) (loads : string -> Result Value)
    (field : Value) (json_str : string) (h : Heap) :
  dumps (VDict [("field", field)]) = Ok json_str ->
  loads json_str = Ok (VDict [("field", field)]) ->
  let e := fst (TestEvent.__init__ field h) in
  let h1 := snd (TestEvent.__init__ field h) in
  TestEvent.as_json dumps e h1 = Ok json_str /\
  exists e' h2,
    TestEvent.from_json loads json_str h1 = (Ok e', h2) /\
    load (_inner_dict e') h2 = Some [("field", field)] /\
    load (_inner_dict e) h2 = Some [("field", field)] /\
    _inner_dict e' <> _inner_dict e.
Proof.
  intros Hdumps Hloads e h1. unfold e, h1. rewrite test_event_init_eq. cbn.
  split.
  - unfold TestEvent.as_json, TestEvent.to_obj, load. cbn.
    by rewrite lookup_insert_eq.
  - unfold TestEvent.from_json, TestEvent.from_obj. rewrite Hloads.
    change (dict_get "field" [("field", field)]) with (Some field).
    cbv beta iota. rewrite test_event_init_eq. cbn.
    eexists _, _. split; [reflexivity |].
    unfold load. cbn. split; [by rewrite lookup_insert_eq |].
    split; [|lia].
    rewrite lookup_insert_ne by lia. by rewrite lookup_insert_eq.
Qed.

(** [TestEvent.from_json] succeeds exactly on the texts that decode to a
    dictionary with a key ["field"]; in every other case it raises and
    allocates nothing. *)
Theorem test_event_from_json_cases
    (loads : string -> Result Value) (json_str : string) (h : Heap) :
  let r := fst (TestEvent.from_json loads json_str h) in
  let h' := snd (TestEvent.from_json loads json_str h) in
  ((exists e, r = Ok e) <->
   (exists d field, loads json_str = Ok (VDict d) /\ dict_get "field" d = Some field)) /\
  ((forall d, loads json_str = Ok (VDict d) -> dict_get "field" d = None ->
      r = Err (KeyError "field")) /\
   ((forall e, r <> Ok e) -> h' = h)).
Proof.
  unfold TestEvent.from_json, TestEvent.from_obj.
  destruct (loads json_str) as [v|e|].
  - destruct v as [| | | | |d|];
      try (split; [split; [by intros [? ?] | by intros (? & ? & ? & ?)] | done]).
    destruct (dict_get "field" d) as [field|] eqn:Hget.
    + rewrite test_event_init_eq. cbn. split.
      * split; [intros _; by exists d, field | intros _; by eexists].
      * split; [intros d' [= <-]; congruence |].
        intros Hno. by destruct (Hno _ eq_refl).
    + cbn. split; [|split; [done | done]].
      split; [by intros [? ?] |].
      intros (d' & f & [= <-] & Hf). congruence.
  - split; [split; [by intros [? ?] | by intros (? & ? & ? & ?)] | done].
  - split; [split; [by intros [? ?] | by intros (? & ? & ? & ?)] | done].
Qed.

Lemma test_event_round_trip_witness :
  exists json_str e' h2,
    TestEvent.as_json json_dumps (fst (TestEvent.__init__ (VStr "value") helpers_heap))
      (snd (TestEvent.__init__ (VStr "value") helpers_heap)) = Ok json_str /\
    TestEvent.from_json json_loads json_str
      (snd (TestEvent.__init__ (VStr "value") helpers_heap)) = (Ok e', h2) /\
    load (_inner_dict e') h2 = Some [("field", VStr "value")].
Proof.
  set (json_str := match json_dumps (VDict [("field", VStr "value")]) with
                   | Ok s => s | _ => EmptyString end).
  destruct (test_event_round_trip json_dumps json_loads (VStr "value") json_str
              helpers_heap) as (Hser & e' & h2 & Hparse & Hload & _).
  - vm_compute. reflexivity.
  - vm_compute. reflexivity.
  - by exists json_str, e', h2.
Defined.

Lemma act_without_test (self : TestAction.t) (e : EventEnvelope) (h : Heap)
    (m : Dict Value) :
  load (meta e) h = Some m -> dict_get "test" m = None ->
  TestAction.act self e h =
    (Err (KeyError "test"),
     TestAction.mk (TestAction.total_event_count self + 1)
       (TestAction.mcl_count self) (TestAction.ece_count self)
       (TestAction.skipped_count self) (TestAction.smiley_count self)).
Proof. intros Hload Hget. unfold TestAction.act. by rewrite Hload, Hget. Qed.

Lemma act_with_smiley (self : TestAction.t) (e : EventEnvelope) (h : Heap)
    (m : Dict Value) :
  load (meta e) h = Some m -> dict_get "test" m = Some (VStr ":)") ->
  TestAction.act self e h =
    (Ok tt,
     count_event
       (TestAction.mk (TestAction.total_event_count self + 1)
          (TestAction.mcl_count self) (TestAction.ece_count self)
          (TestAction.skipped_count self) (TestAction.smiley_count self + 1))
       (event e)).
Proof.
  intros Hload Hget. unfold TestAction.act, count_event. rewrite Hload, Hget.
  cbn [value_eq_str]. change (String.eqb ":)" ":)") with true. cbv iota.
  cbn [TestAction.total_event_count TestAction.mcl_count TestAction.ece_count
       TestAction.skipped_count TestAction.smiley_count].
  by destruct (isinstance (event e) "MetadataChangeLogClass"),
              (isinstance (event e) "EntityChangeEventClass").
Qed.

(** One [act]: the total goes up by one in every case; when it raises no
    other counter moves; when it returns exactly one of the three class
    counters goes up by one and the smiley counter by at most one. *)
Lemma act_step (self : TestAction.t) (e : EventEnvelope) (h : Heap) :
  let r := fst (TestAction.act self e h) in
  let self' := snd (TestAction.act self e h) in
  (TestAction.total_event_count self' = TestAction.total_event_count self + 1)%Z /\
  r <> Hang /\
  (let classes s := (TestAction.mcl_count s + TestAction.ece_count s +
                     TestAction.skipped_count s)%Z in
   let ok := match r with Ok _ => 1%Z | _ => 0%Z end in
   classes self' = (classes self + ok)%Z /\
   (TestAction.mcl_count self <= TestAction.mcl_count self')%Z /\
   (TestAction.ece_count self <= TestAction.ece_count self')%Z /\
   (TestAction.skipped_count self <= TestAction.skipped_count self')%Z /\
   (TestAction.smiley_count self <= TestAction.smiley_count self' <=
    TestAction.smiley_count self + ok)%Z).
Proof.
  unfold TestAction.act.
  destruct (load (meta e) h) as [m|];
    [|cbn; repeat split; first [lia | discriminate]].
  destruct (dict_get "test" m) as [v|];
    [|cbn; repeat split; first [lia | discriminate]].
  destruct (value_eq_str v ":)"),
           (isinstance (event e) "MetadataChangeLogClass"),
           (isinstance (event e) "EntityChangeEventClass");
    cbn; repeat split; first [lia | discriminate].
Qed.

(** Over any sequence of calls of [TestAction.act], going on after the
    ones that raise: the total counts every call; the three class counters
    together count the calls that returned, and none of them goes down; the
    smiley counter goes up by at most the number of calls that returned. *)
Theorem act_all_counts (self : TestAction.t) (envs : list EventEnvelope)
    (h : Heap) :
  let self' := fst (TestAction.act_all self envs h) in
  let failed := snd (TestAction.act_all self envs h) in
  let n := Z.of_nat (length envs) in
  (TestAction.total_event_count self' = TestAction.total_event_count self + n /\
   0 <= failed <= n /\
   TestAction.mcl_count self' + TestAction.ece_count self' +
     TestAction.skipped_count self' + failed =
   TestAction.mcl_count self + TestAction.ece_count self +
     TestAction.skipped_count self + n /\
   TestAction.mcl_count self <= TestAction.mcl_count self' /\
   TestAction.ece_count self <= TestAction.ece_count self' /\
   TestAction.skipped_count self <= TestAction.skipped_count self' /\
   TestAction.smiley_count self <= TestAction.smiley_count self' <=
     TestAction.smiley_count self + n - failed)%Z.
Proof.
  revert self. induction envs as [|e envs IH]; intros self; cbn zeta.
  - cbn. lia.
  - cbn [TestAction.act_all length].
    pose proof (act_step self e h) as Hstep. cbn zeta in Hstep.
    destruct (TestAction.act self e h) as [r self1]. cbn [fst snd] in Hstep.
    specialize (IH self1). cbn zeta in IH.
    destruct (TestAction.act_all self1 envs h) as [self2 failed].
    cbn [fst snd] in IH |- *.
    destruct Hstep as (Ht & Hr & Hc & Hm & He & Hs & Hsm).
    destruct r as [[]|err|]; [| |by destruct Hr]; lia.
Qed.

(** After [TestTransformer.transform], which hands back the envelope it
    was given, [TestAction.act] on that envelope returns and counts a
    smiley; the [meta] of any other envelope is untouched, so [act] on it
    does what it did before. *)
Theorem transform_then_act (self : TestAction.t) (e other : EventEnvelope)
    (h : Heap) :
  is_Some (load (meta e) h) ->
  meta other <> meta e ->
  let out := fst (TestTransformer.transform e h) in
  let h' := snd (TestTransformer.transform e h) in
  out = Some e /\
  fst (TestAction.act self e h') = Ok tt /\
  (TestAction.smiley_count (snd (TestAction.act self e h')) =
   TestAction.smiley_count self + 1)%Z /\
  (TestAction.total_event_count (snd (TestAction.act self e h')) =
   TestAction.total_event_count self + 1)%Z /\
  TestAction.act self other h' = TestAction.act self other h.
Proof.
  intros [m Hm] Hne. cbn zeta. unfold TestTransformer.transform. cbn [fst snd].
  split; [done |].
  assert (Hload : load (meta e) (store_setitem (meta e) "test" (VStr ":)") h) =
                  Some (dict_set "test" (VStr ":)") m)).
  { unfold load, store_setitem in *. cbn. by rewrite lookup_alter_eq, Hm. }
  rewrite (act_with_smiley self e _ _ Hload (dict_get_set_eq _ _ _)).
  unfold count_event.
  split; [done |]. split; [|split].
  - by destruct (isinstance (event e) "MetadataChangeLogClass"),
                (isinstance (event e) "EntityChangeEventClass").
  - by destruct (isinstance (event e) "MetadataChangeLogClass"),
                (isinstance (event e) "EntityChangeEventClass").
  - unfold TestAction.act, load, store_setitem. cbn [dicts].
    by rewrite lookup_alter_ne.
Qed.

Lemma events_eq (mcl ece : Obj) (h : Heap) :
  let n := next_loc h in
  TestEventSource.events mcl ece h =
    ([ {| event_type := "MetadataChangeLogEvent"; event := mcl; meta := n |};
       {| event_type := "EntityChangeLogEvent"; event := ece; meta := S n |};
       {| event_type := "TestEvent";
          event := {| obj_class := "TestEvent"; _inner_dict := S (S n) |};
          meta := S (S (S n)) |} ],
     {| dicts :=
          <[S (S (S n)) := []]>
            (<[S (S n) := [("field", VStr "value")]]>
               (<[S n := []]> (<[n := []]> (dicts h))));
        next_loc := S (S (S (S n))) |}).
Proof.
  intros n. unfold TestEventSource.events, new_dict. cbn [fst snd].
  rewrite test_event_init_eq. reflexivity.
Qed.

(** The three envelopes of [TestEventSource.events()] carry an empty
    [meta]: handed to [TestAction.act] as they are, each one raises
    [KeyError] after being counted in the total; passed through
    [TestTransformer.transform] first, they are counted as one change-log
    event, one entity-change event and one skipped event, with three
    smileys. *)
Theorem events_pass (mcl ece : Obj) (h : Heap) :
  obj_class mcl = "MetadataChangeLogEvent" ->
  obj_class ece = "EntityChangeEvent" ->
  let envs := fst (TestEventSource.events mcl ece h) in
  let h1 := snd (TestEventSource.events mcl ece h) in
  TestAction.act_all TestAction.create envs h1 =
    (TestAction.mk 3 0 0 0 0, 3%Z) /\
  TestAction.act_all TestAction.create envs (transform_all envs h1) =
    (TestAction.mk 3 1 1 1 3, 0%Z).
Proof.
  intros Hmcl Hece. cbn zeta. rewrite events_eq. cbn [fst snd].
  set (n := next_loc h).
  assert (Hm : isinstance mcl "MetadataChangeLogClass" = true)
    by (unfold isinstance; by rewrite Hmcl).
  assert (He1 : isinstance ece "MetadataChangeLogClass" = false)
    by (unfold isinstance; by rewrite Hece).
  assert (He2 : isinstance ece "EntityChangeEventClass" = true)
    by (unfold isinstance; by rewrite Hece).
  split.
  - unfold TestAction.act_all.
    rewrite (act_without_test _ _ _ []);
      [| unfold load; cbn;
         repeat first [rewrite lookup_insert_eq | rewrite lookup_insert_ne by lia];
         done | done].
    rewrite (act_without_test _ _ _ []);
      [| unfold load; cbn;
         repeat first [rewrite lookup_insert_eq | rewrite lookup_insert_ne by lia];
         done | done].
    rewrite (act_without_test _ _ _ []);
      [| unfold load; cbn;
         repeat first [rewrite lookup_insert_eq | rewrite lookup_insert_ne by lia];
         done | done].
    reflexivity.
  - unfold TestAction.act_all, transform_all, TestTransformer.transform,
      store_setitem. cbn [fold_left snd meta dicts next_loc].
    rewrite (act_with_smiley _ _ _ [("test", VStr ":)")]);
      [| unfold load; cbn;
         repeat first [rewrite lookup_alter_eq | rewrite lookup_alter_ne by lia
                      | rewrite lookup_insert_eq | rewrite lookup_insert_ne by lia];
         done | done].
    rewrite (act_with_smiley _ _ _ [("test", VStr ":)")]);
      [| unfold load; cbn;
         repeat first [rewrite lookup_alter_eq | rewrite lookup_alter_ne by lia
                      | rewrite lookup_insert_eq | rewrite lookup_insert_ne by lia];
         done | done].
    rewrite (act_with_smiley _ _ _ [("test", VStr ":)")]);
      [| unfold load; cbn;
         repeat first [rewrite lookup_alter_eq | rewrite lookup_alter_ne by lia
                      | rewrite lookup_insert_eq | rewrite lookup_insert_ne by lia];
         done | done].
    unfold count_event. cbn [event]. rewrite Hm, He1, He2. reflexivity.
Qed.

Lemma stoppable_pulls_running (mcl : Obj) (n : nat) :
  forall h,
    let es := fst (fst (StoppableEventSource.pulls n StoppableEventSource.create mcl h)) in
    let self' := snd (fst (StoppableEventSource.pulls n StoppableEventSource.create mcl h)) in
    let h' := snd (StoppableEventSource.pulls n StoppableEventSource.create mcl h) in
    length es = n /\
    self' = StoppableEventSource.create /\
    next_loc h' = next_loc h + n /\
    (forall l, l < next_loc h -> dicts h' !! l = dicts h !! l) /\
    Forall (fun e => event e = mcl /\
                     next_loc h <= meta e < next_loc h' /\
                     load (meta e) h' = Some []) es /\
    NoDup (map meta es).
Proof.
  induction n as [|n IH]; intros h; cbn zeta.
  - cbn. split; [done |]. split; [done |]. split; [lia |]. split; [done |].
    split; [apply Forall_nil_2 | apply NoDup_nil_2].
  - cbn [StoppableEventSource.pulls StoppableEventSource.next
         StoppableEventSource.create StoppableEventSource.exhausted
         StoppableEventSource.stopped new_dict].
    fold StoppableEventSource.create.
    specialize (IH {| dicts := <[next_loc h := []]> (dicts h);
                      next_loc := S (next_loc h) |}).
    cbn zeta in IH.
    destruct (StoppableEventSource.pulls n StoppableEventSource.create mcl _)
      as [[es self'] h'].
    cbn [fst snd] in IH |- *.
    destruct IH as (Hlen & Hself & Hnext & Hframe & Hall & Hnd).
    cbn [next_loc dicts] in Hnext, Hframe, Hall.
    split; [simpl; congruence |]. split; [done |]. split; [lia |].
    split; [|split].
    + intros l Hl. rewrite Hframe by lia.
      by rewrite lookup_insert_ne by lia.
    + apply Forall_cons. split.
      * cbn. split; [done |]. split; [lia |].
        unfold load. rewrite Hframe by lia.
        by rewrite lookup_insert_eq.
      * eapply Forall_impl; [exact Hall |]. cbn. intros e (He & Hm & Hl).
        split; [done |]. split; [lia | done].
    + cbn. apply NoDup_cons. split; [|done].
      intros Hin. apply list_elem_of_fmap in Hin as (e & Heq & He).
      rewrite Forall_forall in Hall. destruct (Hall e He) as (_ & Hm & _). lia.
Qed.

(** [StoppableEventSource.events()] never ends by itself: as long as
    [close] was not called, [n] pulls give [n] envelopes, all of the
    module's change-log event, each with an empty [meta] dictionary of its
    own. Once [close] was called, no pull gives anything more and none
    allocates. *)
Theorem stoppable_source_stream (mcl : Obj) (n m : nat) (h : Heap) :
  let es := fst (fst (StoppableEventSource.pulls n StoppableEventSource.create mcl h)) in
  let self' := snd (fst (StoppableEventSource.pulls n StoppableEventSource.create mcl h)) in
  let h' := snd (StoppableEventSource.pulls n StoppableEventSource.create mcl h) in
  length es = n /\
  Forall (fun e => event e = mcl /\ load (meta e) h' = Some []) es /\
  NoDup (map meta es) /\
  fst (fst (StoppableEventSource.pulls m (StoppableEventSource.close self') mcl h')) = [] /\
  snd (StoppableEventSource.pulls m (StoppableEventSource.close self') mcl h') = h'.
Proof.
  pose proof (stoppable_pulls_running mcl n h) as Hrun. cbn zeta in Hrun |- *.
  destruct (StoppableEventSource.pulls n StoppableEventSource.create mcl h)
    as [[es self'] h'].
  cbn [fst snd] in Hrun |- *.
  destruct Hrun as (Hlen & -> & _ & _ & Hall & Hnd).
  split; [done |]. split; [|split; [done |]].
  - eapply Forall_impl; [exact Hall |]. cbn. by intros e (He & _ & Hl).
  - by destruct m.
Qed.

(** ** Sample runs of the test helpers *)

Lemma transform_then_act_witness :
  let envs := fst (TestEventSource.events metadata_change_log_event
                     entity_change_event helpers_heap) in
  let h1 := snd (TestEventSource.events metadata_change_log_event
                   entity_change_event helpers_heap) in
  let e := {| event_type := "MetadataChangeLogEvent";
              event := metadata_change_log_event; meta := 2 |} in
  let other := {| event_type := "EntityChangeLogEvent";
                  event := entity_change_event; meta := 3 |} in
  envs !! 0 = Some e /\ envs !! 1 = Some other /\
  fst (TestAction.act TestAction.create e
         (snd (TestTransformer.transform e h1))) = Ok tt /\
  TestAction.act TestAction.create other
    (snd (TestTransformer.transform e h1)) =
  TestAction.act TestAction.create other h1.
Proof.
  cbn zeta. split; [reflexivity |]. split; [reflexivity |].
  match goal with
  | |- fst (TestAction.act _ ?e (snd (TestTransformer.transform _ ?h))) = _ /\
       TestAction.act _ ?o _ = _ =>
      destruct (transform_then_act TestAction.create e o h)
        as (_ & Hok & _ & _ & Hother)
  end.
  - by eexists.
  - cbn. lia.
  - split; [exact Hok | exact Hother].
Defined.

Lemma events_pass_witness :
  TestAction.act_all TestAction.create
    (fst (TestEventSource.events metadata_change_log_event entity_change_event
            helpers_heap))
    (transform_all
       (fst (TestEventSource.events metadata_change_log_event entity_change_event
               helpers_heap))
       (snd (TestEventSource.events metadata_change_log_event entity_change_event
               helpers_heap))) =
  (TestAction.mk 3 1 1 1 3, 0%Z).
Proof.
  exact (proj2 (events_pass metadata_change_log_event entity_change_event
                  helpers_heap eq_refl eq_refl)).
Defined.
